(** * pyalarmdotcom: the [Alarmdotcom] controller over a scripted browser

    A shallow embedding of [src/pyalarmdotcom/pyalarmdotcom.py].  The class
    drives the alarm.com web pages through a selenium driver.  Every driver
    operation is a [call] answered by an abstract browser ([Browser]); the
    methods of the class are programs in a small state-and-exception monad
    that threads the browser, the fields of [self] and the log of the calls
    issued so far.  The recursion of the [state] property is bounded by an
    explicit fuel, with an outcome [OutOfFuel] of its own. *)

From Stdlib Require Import String List ZArith Bool Arith Lia.
Import ListNotations.
Local Open Scope string_scope.
Local Open Scope list_scope.

(** ** Exceptions *)

(** What the driver layer can raise: the four classes named by the
    [except] clause of [state], and [WebDriverException] for every other
    error of the driver (stale element, element not visible, ...). *)
Inductive driver_exn : Type :=
| NoSuchElementException
| NoSuchWindowException
| TimeoutException
| URLError
| WebDriverException.

(** The exceptions of the module itself, and the two Python built-ins that
    tuple indexing and a missing attribute raise.  Messages are dropped. *)
Inductive exn : Type :=
| Driver (e : driver_exn)
| LoginException
| SystemArmedError
| SystemDisarmedError
| ElementException
| IndexError
| AttributeError.

(** The tuple of [except (NoSuchElementException, NoSuchWindowException,
    TimeoutException, urllib.error.URLError)] in [state]. *)
Definition state_except (e : exn) : bool :=
  match e with
  | Driver NoSuchElementException
  | Driver NoSuchWindowException
  | Driver TimeoutException
  | Driver URLError => true
  | _ => false
  end.

(** [except exceptions.TimeoutException] in [_set_state]. *)
Definition timeout_except (e : exn) : bool :=
  match e with
  | Driver TimeoutException => true
  | _ => false
  end.

(** ** The driver interface *)

Definition driver := nat.
Definition WebElement := nat.

(** The three [expected_conditions] the class waits on. *)
Inductive condition : Type :=
| visibility_of_element_located (by_ value : string)
| presence_of_element_located (by_ value : string)
| invisibility_of_element_located (by_ value : string).

(** One constructor per driver operation of the source:
    [webdriver.PhantomJS()], [driver.get(url)], [driver.title],
    [driver.find_element(by, value)], [element.send_keys(text)],
    [element.click()], [WebDriverWait(driver, timeout).until(cond)] and
    [element.get_attribute(name)]. *)
Inductive call : Type :=
| PhantomJS
| driver_get (d : driver) (url : string)
| driver_title (d : driver)
| find_element (d : driver) (by_ value : string)
| send_keys (el : WebElement) (text : string)
| click (el : WebElement)
| until (d : driver) (timeout : Z) (c : condition)
| get_attribute (el : WebElement) (name : string).

(** What each operation returns when it does not raise. *)
Definition ret_type (c : call) : Type :=
  match c with
  | PhantomJS => driver
  | driver_get _ _ => unit
  | driver_title _ => string
  | find_element _ _ _ => WebElement
  | send_keys _ _ => unit
  | click _ => unit
  | until _ _ (invisibility_of_element_located _ _) => unit
  | until _ _ _ => WebElement
  | get_attribute _ _ => option string
  end.

Definition reply (c : call) : Type := (driver_exn + ret_type c)%type.

(** The browser and the remote site behind it: a state [W] that answers
    each call and moves on. *)
Class Browser (W : Type) : Type :=
  respond : W -> forall c : call, W * reply c.

(** A call together with the answer it got. *)
Record event : Type := Event { ev_call : call; ev_reply : reply ev_call }.

(** ** The object and the monad *)

Record Alarmdotcom : Type := mkAlarmdotcom {
  username : string;
  password : string;
  timeout : Z;
  _driver : option driver
}.

Record st (W : Type) : Type := mkSt {
  world : W;
  self : Alarmdotcom;
  log : list event
}.
Arguments mkSt {W} _ _ _.
Arguments world {W} _.
Arguments self {W} _.
Arguments log {W} _.

Inductive outcome (A : Type) : Type :=
| Ret (a : A)
| Raise (e : exn)
| OutOfFuel.
Arguments Ret {A} _.
Arguments Raise {A} _.
Arguments OutOfFuel {A}.

Definition M (W A : Type) : Type := st W -> st W * outcome A.

Definition ret {W A} (a : A) : M W A := fun s => (s, Ret a).

Definition raise {W A} (e : exn) : M W A := fun s => (s, Raise e).

Definition bind {W A B} (m : M W A) (k : A -> M W B) : M W B :=
  fun s =>
    match m s with
    | (s', Ret a) => k a s'
    | (s', Raise e) => (s', Raise e)
    | (s', OutOfFuel) => (s', OutOfFuel)
    end.

Declare Scope py_scope.
Delimit Scope py_scope with py.
Notation "x <- m ;; k" := (bind m (fun x => k))
  (at level 61, m at next level, right associativity) : py_scope.
Notation "m ;; k" := (bind m (fun _ => k))
  (at level 61, right associativity) : py_scope.
Local Open Scope py_scope.

(** [try: body except <handles>: handler]. *)
Definition try_except {W A} (body : M W A) (handles : exn -> bool)
  (handler : M W A) : M W A :=
  fun s =>
    match body s with
    | (s', Raise e) => if handles e then handler s' else (s', Raise e)
    | r => r
    end.

(** Issue one driver call: the browser answers, the event is logged, and an
    error answer is raised as the Python exception. *)
Definition do_call {W} `{Browser W} (c : call) : M W (ret_type c) :=
  fun s =>
    let (w', r) := respond (world s) c in
    (mkSt w' (self s) (log s ++ [Event c r]),
     match r with
     | inl e => Raise (Driver e)
     | inr v => Ret v
     end).

(** [self._driver]; the attribute is missing until [_login] assigns it. *)
Definition get_driver {W} : M W driver :=
  fun s =>
    match _driver (self s) with
    | Some d => (s, Ret d)
    | None => (s, Raise AttributeError)
    end.

(** [self._driver = d]. *)
Definition set_driver {W} (d : driver) : M W unit :=
  fun s =>
    (mkSt (world s)
          (mkAlarmdotcom (username (self s)) (password (self s))
                         (timeout (self s)) (Some d))
          (log s),
     Ret tt).

Definition get_field {W A} (f : Alarmdotcom -> A) : M W A :=
  fun s => (s, Ret (f (self s))).

(** [t[i]] on a tuple of strings. *)
Definition item {W} (t : list string) (i : nat) : M W string :=
  match nth_error t i with
  | Some x => ret x
  | None => raise IndexError
  end.

(** ** Class constants *)

Definition LOGIN_URL : string :=
  "https://www.alarm.com/login?m=no_session&ReturnUrl=/web/Security/SystemSummary.aspx".
Definition LOGIN_USERNAME : list string :=
  ["name"; "ctl00$ContentPlaceHolder1$loginform$txtUserName"].
Definition LOGIN_PASSWORD : list string := ["name"; "txtPassword"].
Definition LOGIN_BUTTON : list string :=
  ["name"; "ctl00$ContentPlaceHolder1$loginform$signInButton"].

Definition STATUS_IMG : list string :=
  ["id"; "ctl00_phBody_ArmingStateWidget_imgState"].

Definition BTN_DISARM : list string :=
  ["id"; "ctl00_phBody_ArmingStateWidget_btnDisarm"].
Definition BTN_ARM_STAY : list string :=
  ["id"; "ctl00_phBody_ArmingStateWidget_btnArmStay";
   "ctl00_phBody_ArmingStateWidget_btnArmOptionStay"].
Definition BTN_ARM_AWAY : list string :=
  ["id"; "ctl00_phBody_ArmingStateWidget_btnArmAway";
   "ctl00_phBody_ArmingStateWidget_btnArmOptionAway"].

Definition BTN_REFRESH : string :=
  "ctl00_phBody_ArmingStateWidget_btnArmingRefresh".
Definition IMG_SPINNER : string :=
  "ctl00_phBody_ArmingStateWidget_imgPopupSpinner".

(** The defaults of [__init__(self, username, password, timeout=5)] and of
    [_set_state(self, btn, timeout=10)]. *)
Definition default_timeout : Z := 5.
Definition default_set_state_timeout : Z := 10.

(** ** The methods *)

Section Methods.
Context {W : Type} `{Browser W}.

(** [_login]: open a new driver on the login page, check its title, send
    the credentials and check the title again. *)
Definition _login : M W bool :=
  d <- do_call PhantomJS ;;
  set_driver d ;;
  d <- get_driver ;;
  do_call (driver_get d LOGIN_URL) ;;
  d <- get_driver ;;
  t <- do_call (driver_title d) ;;
  if String.eqb t "Customer Login" then
    d <- get_driver ;;
    by_ <- item LOGIN_USERNAME 0 ;; v <- item LOGIN_USERNAME 1 ;;
    user <- do_call (find_element d by_ v) ;;
    d <- get_driver ;;
    by_ <- item LOGIN_PASSWORD 0 ;; v <- item LOGIN_PASSWORD 1 ;;
    pwd <- do_call (find_element d by_ v) ;;
    d <- get_driver ;;
    by_ <- item LOGIN_BUTTON 0 ;; v <- item LOGIN_BUTTON 1 ;;
    btn <- do_call (find_element d by_ v) ;;
    u <- get_field username ;;
    do_call (send_keys user u) ;;
    p <- get_field password ;;
    do_call (send_keys pwd p) ;;
    do_call (click btn) ;;
    d <- get_driver ;;
    t' <- do_call (driver_title d) ;;
    if String.eqb t' "Current System Status" then ret true else ret false
  else ret false.

(** [__init__]: store the arguments, then log in; a failed login raises
    [LoginException].  The object under construction is [self] of the
    final state. *)
Definition __init__ (username password : string) (timeout : Z) (w : W)
  : st W * outcome unit :=
  (ok <- _login ;;
   if negb ok then raise LoginException else ret tt)
    (mkSt w (mkAlarmdotcom username password timeout None) []).

(** [_set_state(self, btn, timeout=10)]. *)
Definition _set_state (btn : list string) (timeout' : Z) : M W unit :=
  d <- get_driver ;;
  t <- get_field timeout ;;
  by_ <- item btn 0 ;; v <- item btn 1 ;;
  button <- do_call (until d t (visibility_of_element_located by_ v)) ;;
  do_call (click button) ;;
  if Nat.ltb 2 (List.length btn) then
    d <- get_driver ;;
    t <- get_field timeout ;;
    by_ <- item btn 0 ;; v <- item btn 2 ;;
    opt_button <- do_call (until d t (visibility_of_element_located by_ v)) ;;
    do_call (click opt_button) ;;
    try_except
      (d <- get_driver ;;
       do_call (until d timeout'
                  (invisibility_of_element_located "id" IMG_SPINNER)) ;;
       ret tt)
      timeout_except
      (raise ElementException)
  else ret tt.

(** One pass through the [try] block of [state]: click the refresh button
    and read the [alt] text of the status image. *)
Definition read_status : M W (option string) :=
  d <- get_driver ;;
  t <- get_field timeout ;;
  button <- do_call (until d t
                       (visibility_of_element_located "id" BTN_REFRESH)) ;;
  do_call (click button) ;;
  d <- get_driver ;;
  t <- get_field timeout ;;
  by_ <- item STATUS_IMG 0 ;; v <- item STATUS_IMG 1 ;;
  img <- do_call (until d t (presence_of_element_located by_ v)) ;;
  current_status <- do_call (get_attribute img "alt") ;;
  ret current_status.

(** The [state] property.  The handler logs in again, drops the result of
    [_login], and evaluates [self.state] once more; [fuel] bounds the
    depth of that recursion.  Python bounds it too: at the recursion limit
    of the interpreter the query ends with [RecursionError], raised
    somewhere inside the deepest call.  [OutOfFuel] stands for that end. *)
Fixpoint state (fuel : nat) : M W (option string) :=
  match fuel with
  | O => fun s => (s, OutOfFuel)
  | S fuel' =>
      try_except read_status state_except (_login ;; state fuel')
  end.

Definition is_Disarmed (v : option string) : bool :=
  match v with
  | Some s => String.eqb s "Disarmed"
  | None => false
  end.

Definition disarm (fuel : nat) : M W unit :=
  v <- state fuel ;;
  if negb (is_Disarmed v) then _set_state BTN_DISARM default_set_state_timeout
  else raise SystemDisarmedError.

Definition arm_away (fuel : nat) : M W unit :=
  v <- state fuel ;;
  if is_Disarmed v then _set_state BTN_ARM_AWAY default_set_state_timeout
  else raise SystemArmedError.

Definition arm_stay (fuel : nat) : M W unit :=
  v <- state fuel ;;
  if is_Disarmed v then _set_state BTN_ARM_STAY default_set_state_timeout
  else raise SystemArmedError.

End Methods.

(** [n] turns of the handler of [state], one after the other: the
    refresh-and-read block raises an exception that the [except] clause
    catches, and the login that follows returns.  The result is the state
    after the last turn, when every turn went that way. *)
Fixpoint failed_rounds {W : Type} `{Browser W} (n : nat) (s : st W)
  : option (st W) :=
  match n with
  | O => Some s
  | S k =>
      match read_status s with
      | (s1, Raise e) =>
          if state_except e then
            match _login s1 with
            | (s2, Ret _) => failed_rounds k s2
            | _ => None
            end
          else None
      | _ => None
      end
  end.

(** ** Reading the log *)

Definition count (f : event -> bool) (l : list event) : nat :=
  List.length (filter f l).

(** A reconnect starts a new driver: the first call of [_login]. *)
Definition is_reconnect (e : event) : bool :=
  match ev_call e with
  | PhantomJS => true
  | _ => false
  end.

(** A read attempt starts by waiting for the refresh button. *)
Definition is_read_attempt (e : event) : bool :=
  match ev_call e with
  | until _ _ (visibility_of_element_located _ v) => String.eqb v BTN_REFRESH
  | _ => false
  end.

(** The call was answered with an exception. *)
Definition raised (e : event) : bool :=
  match e with
  | Event _ (inl _) => true
  | Event _ (inr _) => false
  end.

(** The page titles the driver reported, in order. *)
Definition title_of (e : event) : list string :=
  match e with
  | Event c r =>
      match c return reply c -> list string with
      | driver_title _ =>
          fun r => match r with inr t => [t] | inl _ => [] end
      | _ => fun _ => []
      end r
  end.

Definition titles_read (l : list event) : list string := flat_map title_of l.

(** The title seen on arrival at [LOGIN_URL], and the one seen after the
    credentials were submitted. *)
Definition initial_identity (l : list event) : option string :=
  nth_error (titles_read l) 0.
Definition post_submission_identity (l : list event) : option string :=
  nth_error (titles_read l) 1.

(** ** A concrete site *)

(** A small alarm.com: what its pages are titled, how many reads of the
    status image still time out, what the image says, and which controls
    show up.  [drivers] counts the browsers started so far. *)
Record Site : Type := mkSite {
  login_title : string;
  landing_title : string;
  current_title : string;
  read_failures : nat;
  alt_text : option string;
  primary_visible : bool;
  secondary_visible : bool;
  spinner_clears : bool;
  drivers : nat
}.

Definition set_title (w : Site) (t : string) : Site :=
  mkSite (login_title w) (landing_title w) t (read_failures w) (alt_text w)
         (primary_visible w) (secondary_visible w) (spinner_clears w)
         (drivers w).

Definition set_read_failures (w : Site) (n : nat) : Site :=
  mkSite (login_title w) (landing_title w) (current_title w) n (alt_text w)
         (primary_visible w) (secondary_visible w) (spinner_clears w)
         (drivers w).

Definition new_driver (w : Site) : Site :=
  mkSite (login_title w) (landing_title w) "" (read_failures w) (alt_text w)
         (primary_visible w) (secondary_visible w) (spinner_clears w)
         (S (drivers w)).

Definition is_option_button (v : string) : bool :=
  String.eqb v "ctl00_phBody_ArmingStateWidget_btnArmOptionStay"
  || String.eqb v "ctl00_phBody_ArmingStateWidget_btnArmOptionAway".

Definition site_respond (w : Site) (c : call) : Site * reply c :=
  match c return Site * reply c with
  | PhantomJS => (new_driver w, inr (drivers w))
  | driver_get _ _ => (set_title w (login_title w), inr tt)
  | driver_title _ => (w, inr (current_title w))
  | find_element _ _ v =>
      (w, inr (if String.eqb v "txtPassword" then 2
               else if String.eqb v "ctl00$ContentPlaceHolder1$loginform$signInButton"
                    then 3 else 1))
  | send_keys _ _ => (w, inr tt)
  | click el =>
      (if Nat.eqb el 3 then set_title w (landing_title w) else w, inr tt)
  | until d t c0 =>
      match c0 return Site * reply (until d t c0) with
      | visibility_of_element_located _ v =>
          if String.eqb v BTN_REFRESH then (w, inr 4)
          else if is_option_button v then
                 (w, if secondary_visible w then inr 7 else inl TimeoutException)
               else
                 (w, if primary_visible w then inr 6 else inl TimeoutException)
      | presence_of_element_located _ _ =>
          match read_failures w with
          | O => (w, inr 5)
          | S k => (set_read_failures w k, inl TimeoutException)
          end
      | invisibility_of_element_located _ _ =>
          (w, if spinner_clears w then inr tt else inl TimeoutException)
      end
  | get_attribute _ _ => (w, inr (alt_text w))
  end.

#[export] Instance Site_Browser : Browser Site := site_respond.

(** A healthy site whose status image says [alt], after [n] reads that time
    out. *)
Definition site (n : nat) (alt : option string) : Site :=
  mkSite "Customer Login" "Current System Status" "" n alt true true true 0.

(** A site that is disarmed, with its arming controls and its spinner as
    given. *)
Definition disarmed_site (primary secondary spinner : bool) : Site :=
  mkSite "Customer Login" "Current System Status" "" 0 (Some "Disarmed")
         primary secondary spinner 0.

(** A site that answers the credentials with the login page again. *)
Definition rejecting_site : Site :=
  mkSite "Customer Login" "Customer Login" "" 0 (Some "Disarmed")
         true true true 0.

(** A controller as [__init__] leaves it on a healthy site. *)
Definition logged_in (w : Site) (tmo : Z) : st Site :=
  fst (__init__ "user" "secret" tmo w).


(** ** More readers of the log *)

(** The driver a call is made on, for the calls made on a driver. *)
Definition call_driver (c : call) : option driver :=
  match c with
  | driver_get d _ | driver_title d | find_element d _ _ | until d _ _ =>
      Some d
  | _ => None
  end.

(** Every call that names a driver names [d]. *)
Definition addresses (d : driver) (e : event) : bool :=
  match call_driver (ev_call e) with
  | Some d' => Nat.eqb d' d
  | None => true
  end.

(** What was typed, and into which element. *)
Definition keys_of (e : event) : list (WebElement * string) :=
  match ev_call e with
  | send_keys el text => [(el, text)]
  | _ => []
  end.

Definition keys_sent (l : list event) : list (WebElement * string) :=
  flat_map keys_of l.

(** The driver started by an answered [PhantomJS()]. *)
Definition started (e : event) : option driver :=
  match e with
  | Event c r =>
      match c return reply c -> option driver with
      | PhantomJS => fun r => match r with inr d => Some d | inl _ => None end
      | _ => fun _ => None
      end r
  end.

(** The browser started last in [l], or [d0] when none was. *)
Definition current_driver (l : list event) (d0 : option driver)
  : option driver :=
  fold_left (fun acc e => match started e with Some d => Some d | None => acc end)
            l d0.

(** The error a call was answered with, if it was. *)
Definition error_of (e : event) : option driver_exn :=
  match e with
  | Event _ (inl x) => Some x
  | Event _ (inr _) => None
  end.

(** From [s] to [s'] the credentials and the timeout are kept, the log has
    only grown, and [_driver] is the browser started last. *)
Definition keeps_account {W : Type} (s s' : st W) : Prop :=
  username (self s') = username (self s) /\
  password (self s') = password (self s) /\
  timeout (self s') = timeout (self s) /\
  exists l,
    log s' = log s ++ l /\
    _driver (self s') = current_driver l (_driver (self s)).

(** ** A scripted browser *)

(** One answer of the script: an error, or a success carrying the handle
    and the text that the call at hand may need. *)
Inductive answer : Type :=
| Fails (e : driver_exn)
| Gives (n : nat) (text : string).

Definition answer_reply (a : answer) (c : call) : reply c :=
  match a with
  | Fails e => inl e
  | Gives n text =>
      inr (match c return ret_type c with
           | PhantomJS => n
           | driver_get _ _ => tt
           | driver_title _ => text
           | find_element _ _ _ => n
           | send_keys _ _ => tt
           | click _ => tt
           | until _ _ c0 =>
               match c0 return ret_type (until 0 0 c0) with
               | visibility_of_element_located _ _ => n
               | presence_of_element_located _ _ => n
               | invisibility_of_element_located _ _ => tt
               end
           | get_attribute _ _ => Some text
           end)
  end.

(** The calls are answered in the order of the script; when it is used up,
    every call succeeds with handle 0 and the empty text. *)
#[export] Instance Script_Browser : Browser (list answer) | 10 :=
  fun w c =>
    match w with
    | [] => ([], answer_reply (Gives 0 "") c)
    | a :: w' => (w', answer_reply a c)
    end.

(** The ten answers of a login that succeeds on driver [d]. *)
Definition good_login (d : driver) : list answer :=
  [Gives d ""; Gives 0 ""; Gives 0 "Customer Login"; Gives 1 ""; Gives 2 "";
   Gives 3 ""; Gives 0 ""; Gives 0 ""; Gives 0 "";
   Gives 0 "Current System Status"].

(** The four answers of a read of the status [alt]. *)
Definition good_read (alt : string) : list answer :=
  [Gives 4 ""; Gives 0 ""; Gives 5 ""; Gives 0 alt].

(** The controller that [__init__] builds on the script [good_login 0]
    followed by [w]. *)
Definition scripted (w : list answer) : st (list answer) :=
  fst (__init__ "user" "secret" 5 (good_login 0 ++ w)).

(** A controller not yet logged in, on a site. *)
Definition fresh (w : Site) : st Site :=
  mkSt w (mkAlarmdotcom "user" "secret" 5 None) [].

(** A site whose login address serves another page. *)
Definition maintenance_site : Site :=
  mkSite "Maintenance" "Current System Status" "" 0 (Some "Disarmed")
         true true true 0.

(** The refresh button shows, and the click on it is refused. *)
Definition stale_refresh : list answer :=
  [Gives 4 ""; Fails WebDriverException].

(** The status image times out, the new browser lands on a page titled
    ['Session expired'], and the next read says ['Disarmed']. *)
Definition expired_session : list answer :=
  [Gives 4 ""; Gives 0 ""; Fails TimeoutException;
   Gives 1 ""; Gives 0 ""; Gives 0 "Session expired"]
  ++ good_read "Disarmed".

(** ** Symbolic execution *)

Ltac unfold_monad :=
  unfold bind, ret, raise, try_except, do_call, get_driver, set_driver,
    get_field, item in *.

(** Run a program through the answers of the browser, one call at a time. *)
Ltac run_calls :=
  repeat (cbn in *;
          match goal with
          | H : context [match respond ?w ?c with pair _ _ => _ end] |- _ =>
              let E := fresh "E" in
              destruct (respond w c) as [? [?|?]] eqn:E
          | H : context [if String.eqb ?a ?b then _ else _] |- _ =>
              let E := fresh "T" in
              destruct (String.eqb a b) eqn:E
          end).

Ltac inv H := inversion H; subst; clear H.

Ltac str_eq :=
  repeat match goal with
         | T : String.eqb _ _ = true |- _ => apply String.eqb_eq in T; subst
         | T : String.eqb _ _ = false |- _ => apply String.eqb_neq in T
         end.

(** Present the final log as the initial one followed by the new events. *)
Ltac new_events :=
  cbn [log self world]; rewrite <- ?app_assoc; cbn [app];
  eexists; split; [reflexivity|]; cbn.

Section Facts.
Context {W : Type} `{Browser W}.

Lemma read_status_Ret (s s' : st W) (v : option string) :
  read_status s = (s', Ret v) ->
  exists d b img,
    _driver (self s) = Some d /\
    self s' = self s /\
    log s' = log s ++
      [Event (until d (timeout (self s))
                (visibility_of_element_located "id" BTN_REFRESH)) (inr b);
       Event (click b) (inr tt);
       Event (until d (timeout (self s))
                (presence_of_element_located "id"
                   "ctl00_phBody_ArmingStateWidget_imgState")) (inr img);
       Event (get_attribute img "alt") (inr v)].
Proof.
  destruct s as [w [u p t [d|]] lg]; unfold read_status; unfold_monad;
    intros E; run_calls; try discriminate.
  inv E.
  match goal with u0 : unit |- _ => destruct u0 end.
  do 3 eexists; cbn; rewrite <- !app_assoc; cbn; repeat split.
Qed.

(** A read that raises a driver error leaves [self] alone and has logged
    one read attempt and one raised call. *)
Lemma read_status_Raise (s s' : st W) (e : exn) :
  read_status s = (s', Raise e) ->
  state_except e = true ->
  self s' = self s /\
  exists l, log s' = log s ++ l /\
            count is_reconnect l = 0 /\
            count raised l = 1 /\
            count is_read_attempt l = 1.
Proof.
  destruct s as [w [u p t [d|]] lg]; unfold read_status; unfold_monad;
    intros E X; run_calls; try discriminate; inv E; try discriminate;
    (split; [reflexivity|]); new_events; auto.
Qed.

Lemma read_status_fuel (s s' : st W) : read_status s <> (s', OutOfFuel).
Proof.
  destruct s as [w [u p t [d|]] lg]; unfold read_status; unfold_monad;
    intros E; run_calls; discriminate.
Qed.

(** Everything [_login] can do, read off the events it adds to the log. *)
Lemma _login_spec (s s' : st W) (o : outcome bool) :
  _login s = (s', o) ->
  o <> OutOfFuel /\
  username (self s') = username (self s) /\
  password (self s') = password (self s) /\
  timeout (self s') = timeout (self s) /\
  exists l,
    log s' = log s ++ l /\
    count is_reconnect l = 1 /\
    count is_read_attempt l = 0 /\
    ((exists b, o = Ret b) -> count raised l = 0) /\
    (o = Ret true <->
     initial_identity l = Some "Customer Login" /\
     post_submission_identity l = Some "Current System Status") /\
    (o = Ret false <->
     (exists t, initial_identity l = Some t /\ t <> "Customer Login") \/
     (exists t, post_submission_identity l = Some t /\
                t <> "Current System Status")) /\
    (forall e, o = Raise e -> exists de, e = Driver de) /\
    (o = Ret true ->
     exists d l0,
       _driver (self s') = Some d /\
       l = Event PhantomJS (inr d) :: l0 ++
           [Event (driver_title d) (inr "Current System Status")]).
Proof.
  destruct s as [w [u p t dr] lg]; unfold _login; unfold_monad;
    intros E; run_calls; inv E; (split; [discriminate|]);
    do 3 (split; [reflexivity|]); new_events.
  all: do 2 (split; [reflexivity|]).
  all: str_eq; (split; [intros [b X]; first [discriminate | reflexivity]|]).
  all: split; [split; [intros X; first [discriminate | split; reflexivity]
                      | intros [X1 X2];
                        first [discriminate | congruence | reflexivity]]|].
  all: split; [split; [intros X;
                        first [discriminate | solve [left; eauto]
                              | solve [right; eauto]]
                      | intros [[t0 [X Y]]|[t0 [X Y]]];
                        first [discriminate | inv X; congruence]]|].
  all: split; [intros e X; first [discriminate | inv X; eauto]|].
  all: try (intros X; discriminate).
  intros _; eexists;
    eexists (cons _ (cons _ (cons _ (cons _ (cons _ (cons _ (cons _
               (cons _ nil))))))));
    split; reflexivity.
Qed.

Lemma count_app (f : event -> bool) (l1 l2 : list event) :
  count f (l1 ++ l2) = count f l1 + count f l2.
Proof. unfold count. now rewrite filter_app, length_app. Qed.

(** One unfolding of the [state] property. *)
Lemma state_unfold (fuel : nat) (s : st W) :
  state (S fuel) s =
  match read_status s with
  | (s1, Raise e) =>
      if state_except e then
        match _login s1 with
        | (s2, Ret _) => state fuel s2
        | (s2, Raise e') => (s2, Raise e')
        | (s2, OutOfFuel) => (s2, OutOfFuel)
        end
      else (s1, Raise e)
  | r => r
  end.
Proof. reflexivity. Qed.

(** The cases of a [state] call that does not run out of fuel. *)
Lemma state_cases (fuel : nat) (s s' : st W) (o : outcome (option string)) :
  state (S fuel) s = (s', o) ->
  (exists v, read_status s = (s', Ret v) /\ o = Ret v) \/
  (exists e, read_status s = (s', Raise e) /\ state_except e = false /\
             o = Raise e) \/
  (exists s1 e, read_status s = (s1, Raise e) /\ state_except e = true /\
                exists e', _login s1 = (s', Raise e') /\ o = Raise e') \/
  (exists s1 e s2 b, read_status s = (s1, Raise e) /\
                     state_except e = true /\
                     _login s1 = (s2, Ret b) /\ state fuel s2 = (s', o)).
Proof.
  rewrite state_unfold.
  destruct (read_status s) as [s1 [v|e|]] eqn:R.
  - intros E; inv E; left; eauto.
  - destruct (state_except e) eqn:X.
    + destruct (_login s1) as [s2 [b|e'|]] eqn:L.
      * intros E; right; right; right; eauto 10.
      * intros E; inv E; right; right; left; eauto 10.
      * apply _login_spec in L; destruct L as [L _]; congruence.
    + intros E; inv E; right; left; eauto.
  - now apply read_status_fuel in R.
Qed.

(** More fuel does not change a finished call. *)
Lemma state_fuel_mono (fuel : nat) :
  forall (s s' : st W) (o : outcome (option string)),
    state fuel s = (s', o) -> o <> OutOfFuel ->
    forall fuel', fuel <= fuel' -> state fuel' s = (s', o).
Proof.
  induction fuel as [|n IH]; intros s s' o E NO fuel' LE.
  - cbn in E; inv E; congruence.
  - destruct fuel' as [|m]; [lia|].
    apply state_cases in E.
    rewrite state_unfold.
    destruct E as [(v & R & ->)|[(e & R & X & ->)|[(s1 & e & R & X & e' & L & ->)
                  |(s1 & e & s2 & b & R & X & L & E)]]];
      rewrite R; try rewrite X; try rewrite L; auto.
    apply IH; auto; lia.
Qed.

(** A returned status was read in this very call: the last four new
    events are the wait for the refresh button, the click on it, the wait
    for the status image and the read of its [alt] text, which is the
    value returned. *)
Lemma state_Ret_fresh (fuel : nat) :
  forall (s s' : st W) (v : option string),
    state fuel s = (s', Ret v) ->
    exists l d t b img,
      log s' = log s ++ l ++
        [Event (until d t
                  (visibility_of_element_located "id" BTN_REFRESH)) (inr b);
         Event (click b) (inr tt);
         Event (until d t
                  (presence_of_element_located "id"
                     "ctl00_phBody_ArmingStateWidget_imgState")) (inr img);
         Event (get_attribute img "alt") (inr v)].
Proof.
  induction fuel as [|n IH]; intros s s' v E.
  - cbn in E; discriminate.
  - apply state_cases in E.
    destruct E as [(v' & R & E)|[(e & R & X & E)|[(s1 & e & R & X & e' & L & E)
                  |(s1 & e & s2 & b & R & X & L & E)]]]; try discriminate.
    + inv E. apply read_status_Ret in R.
      destruct R as (d & b & img & _ & _ & R).
      exists [], d, (timeout (self s)), b, img. exact R.
    + apply read_status_Raise in R; auto. destruct R as (_ & l1 & R & _).
      apply _login_spec in L. destruct L as (_ & _ & _ & _ & l2 & L & _).
      apply IH in E. destruct E as (l3 & d & t & b0 & img & E).
      exists (l1 ++ l2 ++ l3), d, t, b0, img.
      rewrite E, L, R. now rewrite <- !app_assoc.
Qed.

(** One reconnect for each raised call, and one read attempt more. *)
Lemma state_Ret_counts (fuel : nat) :
  forall (s s' : st W) (v : option string),
    state fuel s = (s', Ret v) ->
    exists l,
      log s' = log s ++ l /\
      count is_reconnect l = count raised l /\
      count is_read_attempt l = S (count raised l) /\
      count raised l < fuel.
Proof.
  induction fuel as [|n IH]; intros s s' v E.
  - cbn in E; discriminate.
  - apply state_cases in E.
    destruct E as [(v' & R & E)|[(e & R & X & E)|[(s1 & e & R & X & e' & L & E)
                  |(s1 & e & s2 & b & R & X & L & E)]]]; try discriminate.
    + apply read_status_Ret in R.
      destruct R as (d & b & img & _ & _ & R).
      eexists; split; [exact R|]. cbn. repeat split; lia.
    + apply read_status_Raise in R; auto.
      destruct R as (_ & l1 & R & A1 & A2 & A3).
      apply _login_spec in L.
      destruct L as (_ & _ & _ & _ & l2 & L & B1 & B2 & B3 & _).
      apply IH in E. destruct E as (l3 & E & C1 & C2 & C3).
      exists (l1 ++ l2 ++ l3). split.
      * rewrite E, L, R. now rewrite <- !app_assoc.
      * rewrite !count_app. rewrite B3 by eauto. lia.
Qed.

(** A failed read and a login that returns: the query starts over. *)
Lemma state_retry (fuel : nat) (s s1 s2 : st W) (e : exn) (b : bool) :
  read_status s = (s1, Raise e) ->
  state_except e = true ->
  _login s1 = (s2, Ret b) ->
  state (S fuel) s = state fuel s2.
Proof.
  intros R X L. rewrite state_unfold, R, X, L. reflexivity.
Qed.

Lemma is_Disarmed_false (v : option string) :
  v <> Some "Disarmed" -> is_Disarmed v = false.
Proof.
  destruct v as [x|]; cbn; auto.
  intros N. apply String.eqb_neq. congruence.
Qed.

(** An action sequence on a locator of two components whose button shows
    and takes the click: two calls, and a normal return. *)
Lemma _set_state_two (btn : list string) (t' : Z) (s : st W)
  (d : driver) (by_ v1 : string) (w1 w2 : W) (b : WebElement) :
  _driver (self s) = Some d ->
  nth_error btn 0 = Some by_ ->
  nth_error btn 1 = Some v1 ->
  nth_error btn 2 = None ->
  respond (world s)
    (until d (timeout (self s)) (visibility_of_element_located by_ v1))
    = (w1, inr b) ->
  respond w1 (click b) = (w2, inr tt) ->
  _set_state btn t' s =
    (mkSt w2 (self s)
       (log s ++
        [Event (until d (timeout (self s))
                  (visibility_of_element_located by_ v1)) (inr b);
         Event (click b) (inr tt)]),
     Ret tt).
Proof.
  destruct s as [w [u p t dr] lg];
    destruct btn as [|b0 [|b1 [|b2 rest]]];
    cbn [self _driver world timeout log nth_error];
    intros D B0 B1 B2 R1 R2; try discriminate.
  subst dr; inv B0; inv B1.
  unfold _set_state; unfold_monad; cbn.
  rewrite R1; cbn. rewrite R2; cbn.
  now rewrite <- !app_assoc.
Qed.

(** The same on a locator of three components, as far as the answer to the
    wait for the second button: that wait is the third call, and an error
    of it ends the sequence. *)
Lemma _set_state_three_wait (btn : list string) (t' : Z) (s : st W)
  (d : driver) (by_ v1 v2 : string) (w1 w2 w3 : W) (b : WebElement)
  (r3 : driver_exn + WebElement) :
  _driver (self s) = Some d ->
  nth_error btn 0 = Some by_ ->
  nth_error btn 1 = Some v1 ->
  nth_error btn 2 = Some v2 ->
  respond (world s)
    (until d (timeout (self s)) (visibility_of_element_located by_ v1))
    = (w1, inr b) ->
  respond w1 (click b) = (w2, inr tt) ->
  respond w2
    (until d (timeout (self s)) (visibility_of_element_located by_ v2))
    = (w3, r3) ->
  exists l,
    log (fst (_set_state btn t' s)) =
      log s ++
      [Event (until d (timeout (self s))
                (visibility_of_element_located by_ v1)) (inr b);
       Event (click b) (inr tt);
       Event (until d (timeout (self s))
                (visibility_of_element_located by_ v2)) r3] ++ l /\
    forall ob, r3 = inr ob -> exists r4 l', l = Event (click ob) r4 :: l'.
Proof.
  destruct s as [w [u p t dr] lg];
    destruct btn as [|b0 [|b1 [|b2 rest]]];
    cbn [self _driver world timeout log nth_error];
    intros D B0 B1 B2 R1 R2 R3; try discriminate.
  subst dr; inv B0; inv B1; inv B2.
  unfold _set_state; unfold_monad; cbn.
  rewrite R1; cbn. rewrite R2; cbn. rewrite R3; cbn.
  destruct r3 as [e|ob]; cbn.
  - exists []. rewrite <- !app_assoc; cbn. split; [reflexivity|].
    intros ob X; discriminate.
  - destruct (respond w3 (click ob)) as [w4 [e|[]]] eqn:R4; cbn.
    + eexists. rewrite <- !app_assoc; cbn. split; [reflexivity|].
      intros ob' X; inv X; eauto.
    + destruct (respond w4 _) as [w5 [[]|[]]] eqn:R5; cbn;
        eexists; rewrite <- !app_assoc; cbn; (split; [reflexivity|]);
        intros ob' X; inv X; eauto.
Qed.

(** The whole of it, when both buttons show and take their clicks: five
    calls, the last one the wait for the spinner, bounded by the [timeout]
    argument, whose answer decides the outcome. *)
Lemma _set_state_three (btn : list string) (t' : Z) (s : st W)
  (d : driver) (by_ v1 v2 : string) (w1 w2 w3 w4 w5 : W)
  (b ob : WebElement) (r5 : driver_exn + unit) :
  _driver (self s) = Some d ->
  nth_error btn 0 = Some by_ ->
  nth_error btn 1 = Some v1 ->
  nth_error btn 2 = Some v2 ->
  respond (world s)
    (until d (timeout (self s)) (visibility_of_element_located by_ v1))
    = (w1, inr b) ->
  respond w1 (click b) = (w2, inr tt) ->
  respond w2
    (until d (timeout (self s)) (visibility_of_element_located by_ v2))
    = (w3, inr ob) ->
  respond w3 (click ob) = (w4, inr tt) ->
  respond w4 (until d t' (invisibility_of_element_located "id" IMG_SPINNER))
    = (w5, r5) ->
  _set_state btn t' s =
    (mkSt w5 (self s)
       (log s ++
        [Event (until d (timeout (self s))
                  (visibility_of_element_located by_ v1)) (inr b);
         Event (click b) (inr tt);
         Event (until d (timeout (self s))
                  (visibility_of_element_located by_ v2)) (inr ob);
         Event (click ob) (inr tt);
         Event (until d t'
                  (invisibility_of_element_located "id" IMG_SPINNER)) r5]),
     match r5 with
     | inl TimeoutException => Raise ElementException
     | inl e => Raise (Driver e)
     | inr _ => Ret tt
     end).
Proof.
  destruct s as [w [u p t dr] lg];
    destruct btn as [|b0 [|b1 [|b2 rest]]];
    cbn [self _driver world timeout log nth_error];
    intros D B0 B1 B2 R1 R2 R3 R4 R5; try discriminate.
  subst dr; inv B0; inv B1; inv B2.
  unfold _set_state; unfold_monad; cbn.
  rewrite R1; cbn. rewrite R2; cbn. rewrite R3; cbn. rewrite R4; cbn.
  rewrite R5; cbn.
  rewrite <- !app_assoc; cbn.
  destruct r5 as [[]|[]]; reflexivity.
Qed.

Lemma failed_rounds_S (n : nat) (s : st W) :
  failed_rounds (S n) s =
  match read_status s with
  | (s1, Raise e) =>
      if state_except e then
        match _login s1 with
        | (s2, Ret _) => failed_rounds n s2
        | _ => None
        end
      else None
  | _ => None
  end.
Proof. reflexivity. Qed.

(** After [n] failed turns a read that succeeds ends the query, at any
    depth above [n], with [n] browsers started and [n + 1] attempts. *)
Lemma failed_rounds_state (n : nat) :
  forall (fuel : nat) (s s2 s' : st W) (v : option string),
    failed_rounds n s = Some s2 ->
    read_status s2 = (s', Ret v) ->
    n < fuel ->
    state fuel s = (s', Ret v) /\
    exists l,
      log s' = log s ++ l /\
      count is_reconnect l = n /\
      count raised l = n /\
      count is_read_attempt l = S n.
Proof.
  induction n as [|k IH]; intros fuel s s2 s' v F R LT.
  - cbn in F; inv F. destruct fuel as [|f]; [lia|].
    split; [rewrite state_unfold, R; reflexivity|].
    apply read_status_Ret in R. destruct R as (d & b & img & _ & _ & R).
    eexists; split; [exact R|]. cbn. repeat split.
  - rewrite failed_rounds_S in F.
    destruct (read_status s) as [s1 [v1|e|]] eqn:R1; try discriminate.
    destruct (state_except e) eqn:X; try discriminate.
    destruct (_login s1) as [s3 [b|e'|]] eqn:L; try discriminate.
    destruct fuel as [|f]; [lia|].
    rewrite (state_retry f _ _ _ _ _ R1 X L).
    destruct (IH f s3 s2 s' v F R) as (E & l3 & L3 & A3 & B3 & C3); [lia|].
    split; [exact E|].
    apply read_status_Raise in R1; auto.
    destruct R1 as (_ & l1 & L1 & A1 & B1 & C1).
    apply _login_spec in L.
    destruct L as (_ & _ & _ & _ & l2 & L2 & A2 & C2 & B2 & _).
    exists (l1 ++ l2 ++ l3). split.
    + rewrite L3, L2, L1. now rewrite <- !app_assoc.
    + rewrite !count_app. rewrite B2 by eauto. lia.
Qed.

End Facts.

(** ** The status query *)

Section Status.
Context {W : Type} `{Browser W}.

(** C1 (as amended): every transient failure of a read is followed by one
    reconnect and one more read, however many there are.  After [n]
    failed reads in a row, each followed by a login that returns, a read
    that succeeds makes the query return its value, at any depth of
    recursion above [n], having started exactly [n] browsers and made
    exactly [n + 1] read attempts: one reconnect and two attempts for a
    first failure, two reconnects and three attempts for a second. *)
Theorem state_retries_after_every_failure
  (n fuel : nat) (s s2 s' : st W) (v : option string) :
  failed_rounds n s = Some s2 ->
  read_status s2 = (s', Ret v) ->
  n < fuel ->
  state fuel s = (s', Ret v) /\
  exists l,
    log s' = log s ++ l /\
    count is_reconnect l = n /\
    count raised l = n /\
    count is_read_attempt l = S n.
Proof. apply failed_rounds_state. Qed.

(** C7: whatever came before, a status query that returns a value has, in
    this call, waited for the refresh button, clicked it, waited for the
    status image and read its [alt] text; these are the last four events
    it added to the log, and the value returned is the one just read. *)
Theorem status_refreshes_then_reads
  (fuel : nat) (s s' : st W) (v : option string) :
  state fuel s = (s', Ret v) ->
  exists l d t b img,
    log s' = log s ++ l ++
      [Event (until d t
                (visibility_of_element_located "id" BTN_REFRESH)) (inr b);
       Event (click b) (inr tt);
       Event (until d t
                (presence_of_element_located "id"
                   "ctl00_phBody_ArmingStateWidget_imgState")) (inr img);
       Event (get_attribute img "alt") (inr v)].
Proof. apply state_Ret_fresh. Qed.

(** C9 (as amended): the value a status query returns is the [alt]
    attribute of the status image, as the driver reported it in this call:
    the last two calls of the query are the wait that locates the image by
    [STATUS_IMG] and [get_attribute('alt')] on the element that wait
    returned, and the answer to the second is the value returned,
    unparsed.  Whatever the attribute holds, a string or nothing, comes
    back: on the site whose image says [alt] the query returns [alt]. *)
Theorem status_returns_alt_text_as_read
  (fuel : nat) (s s' : st W) (v : option string) :
  state fuel s = (s', Ret v) ->
  (exists l d t img,
     log s' = log s ++ l ++
       [Event (until d t
                 (presence_of_element_located "id"
                    "ctl00_phBody_ArmingStateWidget_imgState")) (inr img);
        Event (get_attribute img "alt") (inr v)]) /\
  (forall alt : option string,
     snd (state 1 (logged_in (site 0 alt) 5)) = Ret alt).
Proof.
  intros E. split.
  - destruct (state_Ret_fresh fuel s s' v E) as (l & d & t & b & img & L).
    exists (l ++ [Event (until d t
                            (visibility_of_element_located "id" BTN_REFRESH))
                         (inr b);
                  Event (click b) (inr tt)]), d, t, img.
    rewrite L. now rewrite <- !app_assoc.
  - intros alt. vm_compute. reflexivity.
Qed.

End Status.

(** ** Arming and disarming *)

Section Actions.
Context {W : Type} `{Browser W}.

(** C3: when the status read by [disarm] is ['Disarmed'], the call raises
    [SystemDisarmedError] in the very state the read left: no further
    call reached the driver. *)
Theorem disarm_rejected_when_Disarmed (fuel : nat) (s s1 : st W) :
  state fuel s = (s1, Ret (Some "Disarmed")) ->
  disarm fuel s = (s1, Raise SystemDisarmedError).
Proof.
  intros E. unfold disarm, bind. now rewrite E.
Qed.

(** C4: when the status read by [arm_stay] or [arm_away] is anything but
    the value ['Disarmed'], no further call reaches the driver (the state
    is the one the read left), and when the read returned a value the
    call raises [SystemArmedError]. *)
Theorem arm_rejected_when_not_Disarmed
  (fuel : nat) (s s1 : st W) (o : outcome (option string)) :
  state fuel s = (s1, o) ->
  o <> Ret (Some "Disarmed") ->
  fst (arm_stay fuel s) = s1 /\
  fst (arm_away fuel s) = s1 /\
  forall v, o = Ret v ->
            arm_stay fuel s = (s1, Raise SystemArmedError) /\
            arm_away fuel s = (s1, Raise SystemArmedError).
Proof.
  intros E N. unfold arm_stay, arm_away, bind. rewrite E.
  destruct o as [v|e|].
  - rewrite is_Disarmed_false by congruence.
    repeat split; reflexivity.
  - repeat split; intros; discriminate.
  - repeat split; intros; discriminate.
Qed.

(** C6: after a status read that makes the operation legal, and once the
    primary button has shown and taken its click, the operation goes on
    according to its locator.  For [disarm], whose locator [BTN_DISARM] has
    no third component, that is the end: it returns with these two calls
    made and no other.  For [arm_away] and [arm_stay], whose locators have
    one, the next call is the wait for that secondary button, and when the
    wait returns an element the call after it is the click on that
    element. *)
Theorem secondary_step_iff_locator_defines_it
  (op : nat -> M W unit) (btn : list string) (fuel : nat) (s s1 : st W)
  (v : option string) (d : driver) (v1 : string) (w1 w2 w3 : W)
  (b : WebElement) (r3 : driver_exn + WebElement) :
  (op = disarm /\ btn = BTN_DISARM /\ is_Disarmed v = false) \/
  (op = arm_away /\ btn = BTN_ARM_AWAY /\ is_Disarmed v = true) \/
  (op = arm_stay /\ btn = BTN_ARM_STAY /\ is_Disarmed v = true) ->
  state fuel s = (s1, Ret v) ->
  _driver (self s1) = Some d ->
  nth_error btn 1 = Some v1 ->
  respond (world s1)
    (until d (timeout (self s1)) (visibility_of_element_located "id" v1))
    = (w1, inr b) ->
  respond w1 (click b) = (w2, inr tt) ->
  (forall v2, nth_error btn 2 = Some v2 ->
     respond w2
       (until d (timeout (self s1)) (visibility_of_element_located "id" v2))
       = (w3, r3)) ->
  match nth_error btn 2 with
  | None =>
      op = disarm /\
      op fuel s =
        (mkSt w2 (self s1)
           (log s1 ++
            [Event (until d (timeout (self s1))
                      (visibility_of_element_located "id" v1)) (inr b);
             Event (click b) (inr tt)]),
         Ret tt)
  | Some v2 =>
      (op = arm_away \/ op = arm_stay) /\
      exists l,
        log (fst (op fuel s)) =
          log s1 ++
          [Event (until d (timeout (self s1))
                    (visibility_of_element_located "id" v1)) (inr b);
           Event (click b) (inr tt);
           Event (until d (timeout (self s1))
                    (visibility_of_element_located "id" v2)) r3] ++ l /\
        forall ob, r3 = inr ob ->
                   exists r4 l', l = Event (click ob) r4 :: l'
  end.
Proof.
  intros O E D B1 R1 R2 R3.
  destruct O as [(-> & -> & DV) | [(-> & -> & DV) | (-> & -> & DV)]];
    cbn [nth_error BTN_DISARM BTN_ARM_AWAY BTN_ARM_STAY] in *;
    unfold disarm, arm_away, arm_stay, bind; rewrite E, DV; cbn [negb].
  - split; [reflexivity|].
    apply (_set_state_two BTN_DISARM _ _ d "id" v1 w1 w2 b); auto.
  - split; [auto|].
    apply (_set_state_three_wait BTN_ARM_AWAY _ _ d "id" v1 _ w1 w2 w3 b r3);
      auto.
  - split; [auto|].
    apply (_set_state_three_wait BTN_ARM_STAY _ _ d "id" v1 _ w1 w2 w3 b r3);
      auto.
Qed.

(** C8 (as amended): in [arm_away] and [arm_stay], after a status read of
    ['Disarmed'] and once both buttons have shown and taken their clicks,
    the operation makes one more call, the wait for the spinner to
    disappear, bounded by the [timeout] argument of [_set_state], which
    both pass as its default of 10 whatever the timeout of the controller
    is.  The answer to that wait is the outcome: a [TimeoutException] is
    raised as [ElementException], any other error as it is, and otherwise
    the operation returns.  The default of the controller, 5, is below
    10. *)
Theorem arm_completion_wait_bounded_by_set_state_timeout
  (arm : nat -> M W unit) (fuel : nat) (s s1 : st W)
  (d : driver) (v1 v2 : string) (w1 w2 w3 w4 w5 : W) (b ob : WebElement)
  (r5 : driver_exn + unit) :
  (arm = arm_away /\ ["id"; v1; v2] = BTN_ARM_AWAY) \/
  (arm = arm_stay /\ ["id"; v1; v2] = BTN_ARM_STAY) ->
  state fuel s = (s1, Ret (Some "Disarmed")) ->
  _driver (self s1) = Some d ->
  respond (world s1)
    (until d (timeout (self s1)) (visibility_of_element_located "id" v1))
    = (w1, inr b) ->
  respond w1 (click b) = (w2, inr tt) ->
  respond w2
    (until d (timeout (self s1)) (visibility_of_element_located "id" v2))
    = (w3, inr ob) ->
  respond w3 (click ob) = (w4, inr tt) ->
  respond w4
    (until d default_set_state_timeout
       (invisibility_of_element_located "id" IMG_SPINNER))
    = (w5, r5) ->
  arm fuel s =
    (mkSt w5 (self s1)
       (log s1 ++
        [Event (until d (timeout (self s1))
                  (visibility_of_element_located "id" v1)) (inr b);
         Event (click b) (inr tt);
         Event (until d (timeout (self s1))
                  (visibility_of_element_located "id" v2)) (inr ob);
         Event (click ob) (inr tt);
         Event (until d default_set_state_timeout
                  (invisibility_of_element_located "id" IMG_SPINNER)) r5]),
     match r5 with
     | inl TimeoutException => Raise ElementException
     | inl e => Raise (Driver e)
     | inr _ => Ret tt
     end) /\
  (default_timeout < default_set_state_timeout)%Z.
Proof.
  intros A E D R1 R2 R3 R4 R5. split; [|reflexivity].
  destruct A as [(-> & B) | (-> & B)]; unfold arm_away, arm_stay, bind;
    rewrite E; cbn [is_Disarmed String.eqb]; rewrite <- B;
    apply (_set_state_three ["id"; v1; v2] _ _ d "id" v1 v2
             w1 w2 w3 w4 w5 b ob r5); auto.
Qed.

End Actions.

(** ** Construction *)

Section Construction.
Context {W : Type} `{Browser W}.

(** C5: [__init__] raises [LoginException] exactly when the title read on
    arrival is not ['Customer Login'] or the title read after the
    credentials were submitted is not ['Current System Status'], and it
    returns an object exactly when both titles were read and matched. *)
Theorem connect_LoginException_iff_identity_mismatch
  (u p : string) (t : Z) (w : W) (s' : st W) (o : outcome unit) :
  __init__ u p t w = (s', o) ->
  (o = Raise LoginException <->
   (exists t0, initial_identity (log s') = Some t0 /\
               t0 <> "Customer Login") \/
   (exists t1, post_submission_identity (log s') = Some t1 /\
               t1 <> "Current System Status")) /\
  (o = Ret tt <->
   initial_identity (log s') = Some "Customer Login" /\
   post_submission_identity (log s') = Some "Current System Status").
Proof.
  unfold __init__, bind.
  destruct (_login _) as [s1 ob] eqn:L.
  destruct (_login_spec _ _ _ L)
    as (_ & _ & _ & _ & l & LG & _ & _ & _ & T & F & D & _).
  cbn [log app] in LG. subst l.
  destruct ob as [[|]|e|]; cbn; intros E; inv E.
  - split.
    + split; [discriminate|]. intros X. apply F in X. discriminate.
    + split; [intros _; now apply T | reflexivity].
  - split.
    + split; [intros _; now apply F | reflexivity].
    + split; [discriminate|]. intros X. apply T in X. discriminate.
  - destruct (D e eq_refl) as (de & ->). split.
    + split; [discriminate|]. intros X. apply F in X. discriminate.
    + split; [discriminate|]. intros X. apply T in X. discriminate.
  - split.
    + split; [discriminate|]. intros X. apply F in X. discriminate.
    + split; [discriminate|]. intros X. apply T in X. discriminate.
Qed.

(** The constructor runs [_login] at once, and has three outcomes:
    an object, whose [_driver] is the browser that [_login] started and
    on which the last thing seen is the title ['Current System Status'];
    [LoginException], when [_login] returned [False]; or the error of
    the driver that interrupted [_login].  No object comes out of the
    last two. *)
Theorem init_logs_in_eagerly
  (u p : string) (t : Z) (w : W) (s' : st W) (o : outcome unit) :
  __init__ u p t w = (s', o) ->
  let s0 := mkSt w (mkAlarmdotcom u p t None) [] in
  (o = Ret tt /\ _login s0 = (s', Ret true) /\
   exists d l0,
     self s' = mkAlarmdotcom u p t (Some d) /\
     log s' = Event PhantomJS (inr d) :: l0 ++
              [Event (driver_title d) (inr "Current System Status")]) \/
  (o = Raise LoginException /\ _login s0 = (s', Ret false)) \/
  (exists e, o = Raise (Driver e) /\ _login s0 = (s', Raise (Driver e))).
Proof.
  intros E s0. unfold __init__, bind in E.
  change (mkSt w (mkAlarmdotcom u p t None) []) with s0 in E.
  destruct (_login s0) as [s1 ob] eqn:L.
  destruct (_login_spec _ _ _ L)
    as (NF & U & P & T & l & LG & _ & _ & _ & _ & _ & D & A).
  cbn [log app self username password timeout s0] in *. subst l.
  destruct ob as [[|]|e|]; cbn in E; inv E.
  - left. repeat split.
    destruct (A eq_refl) as (d & l0 & DR & LG).
    exists d, l0. split; [|exact LG].
    destruct (self s') as [u' p' t' d']; cbn in *; congruence.
  - right; left; auto.
  - right; right. destruct (D e eq_refl) as (de & ->). eauto.
  - congruence.
Qed.

End Construction.

(** ** Runs on the concrete site *)

(** On a site whose status image times out [n] times, the query logs in
    again [n] times and returns on the attempt after the last failure. *)
Lemma state_retries_every_failure (alt : option string) (n : nat) :
  forall (ct : string) (pv sv sc : bool) (dn : nat) (u p : string) (t : Z)
         (d : driver) (lg : list event),
    exists s' l,
      state (S n)
        (mkSt (mkSite "Customer Login" "Current System Status" ct n alt
                      pv sv sc dn)
              (mkAlarmdotcom u p t (Some d)) lg) = (s', Ret alt) /\
      log s' = lg ++ l /\
      count is_reconnect l = n /\
      count is_read_attempt l = S n.
Proof.
  induction n as [|n IH]; intros ct pv sv sc dn u p t d lg.
  - eexists; eexists; split; [cbn; reflexivity|].
    cbn [log]; rewrite <- !app_assoc; cbn [app].
    split; [reflexivity|]. split; reflexivity.
  - erewrite state_retry; [| cbn; reflexivity | reflexivity | cbn; reflexivity].
    edestruct IH as (s' & l2 & E & LG & A & B).
    exists s'. eexists. split; [exact E|].
    cbn [log] in LG; rewrite <- !app_assoc in LG; cbn [app] in LG.
    split; [exact LG|].
    unfold count in *; cbn; lia.
Qed.

(** C1 (counterexample): on a site whose status image times out on the
    first read and again on the read after the first reconnect, the query
    raises nothing: it logs in a second time, makes a third attempt and
    returns what that attempt read. *)
Lemma state_second_failure_reconnects_again :
  let s := logged_in (site 2 (Some "Disarmed")) 5 in
  let r := state 3 s in
  let l := skipn (List.length (log s)) (log (fst r)) in
  log (fst r) = log s ++ l /\
  snd r = Ret (Some "Disarmed") /\
  count raised l = 2 /\
  count is_reconnect l = 2 /\
  count is_read_attempt l = 3.
Proof. vm_compute. repeat split. Qed.

Lemma status_refreshes_then_reads_witness :
  let s := logged_in (site 0 (Some "Armed Away")) 5 in
  let s' := fst (state 1 s) in
  state 1 s = (s', Ret (Some "Armed Away")) /\
  exists l d t b img,
    log s' = log s ++ l ++
      [Event (until d t
                (visibility_of_element_located "id" BTN_REFRESH)) (inr b);
       Event (click b) (inr tt);
       Event (until d t
                (presence_of_element_located "id"
                   "ctl00_phBody_ArmingStateWidget_imgState")) (inr img);
       Event (get_attribute img "alt") (inr (Some "Armed Away"))].
Proof.
  intros s s'.
  assert (E : state 1 s = (s', Ret (Some "Armed Away"))) by (vm_compute; reflexivity).
  split; [exact E | exact (status_refreshes_then_reads 1 s s' _ E)].
Defined.

Lemma disarm_rejected_when_Disarmed_witness :
  let s := logged_in (site 0 (Some "Disarmed")) 5 in
  let s1 := fst (state 1 s) in
  state 1 s = (s1, Ret (Some "Disarmed")) /\
  disarm 1 s = (s1, Raise SystemDisarmedError).
Proof.
  intros s s1.
  assert (E : state 1 s = (s1, Ret (Some "Disarmed"))) by (vm_compute; reflexivity).
  split; [exact E | exact (disarm_rejected_when_Disarmed 1 s s1 E)].
Defined.

Lemma arm_rejected_when_not_Disarmed_witness :
  let s := logged_in (site 0 (Some "Armed Away")) 5 in
  let s1 := fst (state 1 s) in
  state 1 s = (s1, Ret (Some "Armed Away")) /\
  Ret (Some "Armed Away") <> Ret (Some "Disarmed") /\
  fst (arm_stay 1 s) = s1 /\
  fst (arm_away 1 s) = s1 /\
  forall v, Ret (Some "Armed Away") = Ret v ->
            arm_stay 1 s = (s1, Raise SystemArmedError) /\
            arm_away 1 s = (s1, Raise SystemArmedError).
Proof.
  intros s s1.
  assert (E : state 1 s = (s1, Ret (Some "Armed Away"))) by (vm_compute; reflexivity).
  assert (N : Ret (Some "Armed Away") <> Ret (Some "Disarmed") :> outcome _)
    by discriminate.
  split; [exact E|]. split; [exact N|].
  exact (arm_rejected_when_not_Disarmed 1 s s1 _ E N).
Defined.

(** C2: on a disarmed site whose arming button never shows, [arm_away]
    ends with the [TimeoutException] of the wait, and so does it when only
    the confirmation button never shows; [disarm] on an armed site whose
    disarm button never shows does the same.  None raises
    [ElementException], the exception the module keeps for an element that
    cannot be located. *)
Theorem arm_control_timeout_raises_TimeoutException :
  snd (arm_away 1 (logged_in (disarmed_site false true true) 5))
    = Raise (Driver TimeoutException) /\
  snd (arm_away 1 (logged_in (disarmed_site true false true) 5))
    = Raise (Driver TimeoutException) /\
  snd (arm_stay 1 (logged_in (disarmed_site true false true) 5))
    = Raise (Driver TimeoutException) /\
  snd (disarm 1
         (logged_in
            (mkSite "Customer Login" "Current System Status" "" 0
                    (Some "Armed Away") false true true 0) 5))
    = Raise (Driver TimeoutException) /\
  Raise (Driver TimeoutException) <> Raise ElementException :> outcome unit.
Proof. repeat split; try (vm_compute; reflexivity). discriminate. Qed.

(** C8 (counterexample): a controller built with a timeout of 20 waits 20
    for each control of [arm_away] and 10 for the spinner: the completion
    wait is the shorter one. *)
Lemma completion_timeout_not_longer :
  let s := logged_in (disarmed_site true true true) 20 in
  let r := arm_away 1 s in
  snd r = Ret tt /\
  In (Event (until 0 10 (invisibility_of_element_located "id" IMG_SPINNER))
            (inr tt))
     (log (fst r)) /\
  timeout (self s) = 20%Z /\
  ~ (timeout (self s) < 10)%Z.
Proof.
  cbv zeta. split; [vm_compute; reflexivity|].
  split; [apply (nth_error_In _ 18); vm_compute; reflexivity|].
  split; [reflexivity|]. cbn. lia.
Qed.

Lemma connect_LoginException_iff_identity_mismatch_witness :
  let r := __init__ "user" "wrong" 5 rejecting_site in
  __init__ "user" "wrong" 5 rejecting_site = (fst r, Raise LoginException) /\
  (@Raise unit LoginException = Raise LoginException <->
   (exists t0, initial_identity (log (fst r)) = Some t0 /\
               t0 <> "Customer Login") \/
   (exists t1, post_submission_identity (log (fst r)) = Some t1 /\
               t1 <> "Current System Status")) /\
  (Raise LoginException = Ret tt <->
   initial_identity (log (fst r)) = Some "Customer Login" /\
   post_submission_identity (log (fst r)) = Some "Current System Status").
Proof.
  intros r.
  assert (E : __init__ "user" "wrong" 5 rejecting_site
              = (fst r, Raise LoginException))
    by (vm_compute; reflexivity).
  split; [exact E|].
  exact (connect_LoginException_iff_identity_mismatch
           "user" "wrong" 5 rejecting_site (fst r) _ E).
Defined.

Lemma init_logs_in_eagerly_witness :
  let w := site 0 (Some "Disarmed") in
  let s' := fst (__init__ "user" "secret" 5 w) in
  let s0 := mkSt w (mkAlarmdotcom "user" "secret" 5 None) [] in
  __init__ "user" "secret" 5 w = (s', Ret tt) /\
  ((Ret tt = Ret tt /\ _login s0 = (s', Ret true) /\
    exists d l0,
      self s' = mkAlarmdotcom "user" "secret" 5 (Some d) /\
      log s' = Event PhantomJS (inr d) :: l0 ++
               [Event (driver_title d) (inr "Current System Status")]) \/
   (Ret tt = Raise LoginException /\ _login s0 = (s', Ret false)) \/
   (exists e, Ret tt = Raise (Driver e) /\
              _login s0 = (s', Raise (Driver e)))).
Proof.
  intros w s' s0.
  assert (E : __init__ "user" "secret" 5 w = (s', Ret tt))
    by (vm_compute; reflexivity).
  split; [exact E|].
  exact (init_logs_in_eagerly "user" "secret" 5 w s' _ E).
Defined.

(** ** Further facts about the methods *)

(** Split a list of events given in full into its last event and the rest. *)
Ltac last_event :=
  match goal with
  | |- exists de l0 ev, Driver ?x = _ /\ _ ++ ?l = _ /\ _ =>
      exists x, (removelast l), (last l (Event PhantomJS (inl x)));
      split; [reflexivity|]; split; [cbn; reflexivity|]
  end.

Section MoreFacts.
Context {W : Type} `{Browser W}.

Lemma current_driver_app (l1 l2 : list event) (d0 : option driver) :
  current_driver (l1 ++ l2) d0 = current_driver l2 (current_driver l1 d0).
Proof. unfold current_driver. apply fold_left_app. Qed.

Lemma current_driver_set (l : list event) :
  forall d0, d0 <> None -> current_driver l d0 <> None.
Proof.
  induction l as [|e l IH]; intros d0 N; cbn; auto.
  apply IH. destruct (started e); congruence.
Qed.

Lemma keeps_account_refl (s : st W) : keeps_account s s.
Proof.
  repeat split. exists []. now rewrite app_nil_r.
Qed.

Lemma keeps_account_trans (s1 s2 s3 : st W) :
  keeps_account s1 s2 -> keeps_account s2 s3 -> keeps_account s1 s3.
Proof.
  intros (U1 & P1 & T1 & l1 & L1 & D1) (U2 & P2 & T2 & l2 & L2 & D2).
  repeat split; try congruence.
  exists (l1 ++ l2). split.
  - rewrite L2, L1. now rewrite app_assoc.
  - rewrite current_driver_app, <- D1. exact D2.
Qed.

(** [_login] starts a browser first.  If that fails nothing else happens
    and [self] is as before; otherwise [_driver] is the new browser from
    then on, whatever the outcome, and no call names another one. *)
Lemma _login_driver_spec (s s' : st W) (o : outcome bool) :
  _login s = (s', o) ->
  exists r l,
    log s' = log s ++ Event PhantomJS r :: l /\
    match r with
    | inl e => self s' = self s /\ l = [] /\ o = Raise (Driver e)
    | inr d =>
        self s' = mkAlarmdotcom (username (self s)) (password (self s))
                                (timeout (self s)) (Some d) /\
        forallb (addresses d) l = true /\
        count is_reconnect l = 0
    end.
Proof.
  destruct s as [w [u p t dr] lg]; unfold _login; unfold_monad;
    intros E; run_calls; inv E;
    cbn [log self world]; rewrite <- ?app_assoc; cbn [app];
    do 2 eexists; (split; [reflexivity|]); cbn;
    unfold addresses; cbn; rewrite ?Nat.eqb_refl; cbn; auto.
Qed.

Lemma _login_keeps (s s' : st W) (o : outcome bool) :
  _login s = (s', o) -> keeps_account s s'.
Proof.
  destruct s as [w [u p t dr] lg]; unfold _login; unfold_monad;
    intros E; run_calls; inv E; repeat split;
    cbn [log self world]; rewrite <- ?app_assoc; cbn [app];
    eexists; (split; [reflexivity|]); reflexivity.
Qed.

Lemma read_status_keeps (s s' : st W) (o : outcome (option string)) :
  read_status s = (s', o) -> keeps_account s s'.
Proof.
  destruct s as [w [u p t [d|]] lg]; unfold read_status; unfold_monad;
    intros E; run_calls; inv E; repeat split;
    cbn [log self world]; rewrite <- ?app_assoc; cbn [app];
    first [ eexists; (split; [reflexivity|]); reflexivity
          | exists []; rewrite app_nil_r; split; reflexivity ].
Qed.

Lemma _set_state_keeps (btn : list string) (t' : Z) (s s' : st W)
  (o : outcome unit) :
  _set_state btn t' s = (s', o) -> keeps_account s s'.
Proof.
  destruct s as [w [u p t [d|]] lg];
    destruct btn as [|b0 [|b1 [|b2 rest]]];
    unfold _set_state; unfold_monad; intros E; run_calls;
    try match type of E with
        | context [if ?c then _ else _] =>
            match c with context [?x] => is_var x; destruct x end
        end;
    inv E; repeat split;
    cbn [log self world]; rewrite <- ?app_assoc; cbn [app];
    first [ eexists; (split; [reflexivity|]); reflexivity
          | exists []; rewrite app_nil_r; split; reflexivity ].
Qed.

Lemma state_keeps (fuel : nat) :
  forall (s s' : st W) (o : outcome (option string)),
    state fuel s = (s', o) -> keeps_account s s'.
Proof.
  induction fuel as [|n IH]; intros s s' o E.
  - cbn in E; inv E. apply keeps_account_refl.
  - apply state_cases in E.
    destruct E as [(v & R & E)|[(e & R & X & E)|[(s1 & e & R & X & e' & L & E)
                  |(s1 & e & s2 & b & R & X & L & E)]]].
    + eapply read_status_keeps; eauto.
    + eapply read_status_keeps; eauto.
    + eapply keeps_account_trans;
        [eapply read_status_keeps | eapply _login_keeps]; eauto.
    + eapply keeps_account_trans; [eapply read_status_keeps; eauto|].
      eapply keeps_account_trans; [eapply _login_keeps; eauto|].
      eapply IH; eauto.
Qed.

(** An error out of [_login] is the answer of the driver to its last call;
    it is the only call of the login that raised. *)
Lemma _login_Raise_last (s s' : st W) (e : exn) :
  _login s = (s', Raise e) ->
  exists de l0 ev,
    e = Driver de /\
    log s' = log s ++ l0 ++ [ev] /\
    error_of ev = Some de /\
    count raised (l0 ++ [ev]) = 1 /\
    count is_reconnect (l0 ++ [ev]) = 1 /\
    count is_read_attempt (l0 ++ [ev]) = 0.
Proof.
  destruct s as [w [u p t dr] lg]; unfold _login; unfold_monad;
    intros E; run_calls; inv E;
    cbn [log self world]; rewrite <- ?app_assoc; cbn [app];
    last_event; cbn; auto.
Qed.

(** The same for one read of the status, on a controller with a driver. *)
Lemma read_status_Raise_last (s s' : st W) (e : exn) :
  read_status s = (s', Raise e) ->
  _driver (self s) <> None ->
  exists de l0 ev,
    e = Driver de /\
    log s' = log s ++ l0 ++ [ev] /\
    error_of ev = Some de /\
    self s' = self s /\
    count raised (l0 ++ [ev]) = 1 /\
    count is_reconnect (l0 ++ [ev]) = 0 /\
    count is_read_attempt (l0 ++ [ev]) = 1.
Proof.
  destruct s as [w [u p t [d|]] lg]; unfold read_status; unfold_monad;
    intros E N; run_calls; inv E; try (cbn in N; congruence);
    cbn [log self world]; rewrite <- ?app_assoc; cbn [app];
    last_event; cbn; auto.
Qed.

Lemma _login_Ret_driver (s s' : st W) (b : bool) :
  _login s = (s', Ret b) -> _driver (self s') <> None.
Proof.
  intros E. destruct (_login_driver_spec _ _ _ E) as (r & l & _ & X).
  destruct r as [e|d].
  - destruct X as (_ & _ & X). discriminate.
  - destruct X as (X & _). rewrite X. discriminate.
Qed.

(** What [state] raises, on a controller with a driver. *)
Lemma state_Raise_spec (fuel : nat) :
  forall (s s' : st W) (e : exn),
    _driver (self s) <> None ->
    state fuel s = (s', Raise e) ->
    exists de l0 ev,
      e = Driver de /\
      log s' = log s ++ l0 ++ [ev] /\
    error_of ev = Some de /\
      count raised (l0 ++ [ev]) =
        S (count is_reconnect (l0 ++ [ev])) /\
      (state_except e = true ->
       count is_read_attempt (l0 ++ [ev]) =
         count is_reconnect (l0 ++ [ev])).
Proof.
  induction fuel as [|n IH]; intros s s' e N E.
  - cbn in E; discriminate.
  - apply state_cases in E.
    destruct E as [(v & R & E)|[(e0 & R & X & E)|[(s1 & e0 & R & X & e' & L & E)
                  |(s1 & e0 & s2 & b & R & X & L & E)]]]; try discriminate.
    + inv E. destruct (read_status_Raise_last _ _ _ R N)
        as (de & l0 & ev & -> & LG & EV & _ & A & B & C).
      exists de, l0, ev. repeat split; auto; try lia.
      intros Y; congruence.
    + inv E. destruct (read_status_Raise_last _ _ _ R N)
        as (de & l0 & ev & -> & LG & EV & _ & A & B & C).
      destruct (_login_Raise_last _ _ _ L)
        as (de' & l1 & ev' & -> & LG' & EV' & A' & B' & C').
      exists de', ((l0 ++ [ev]) ++ l1), ev'.
      split; [reflexivity|]. split; [|split; [exact EV'|]].
      * rewrite LG', LG. now rewrite <- !app_assoc.
      * rewrite <- (app_assoc (l0 ++ [ev]) l1 [ev']).
        rewrite !(count_app _ (l0 ++ [ev])).
        split; [|intros _]; lia.
    + destruct (read_status_Raise_last _ _ _ R N)
        as (de & l0 & ev & -> & LG & EV & SF & A & B & C).
      pose proof (_login_Ret_driver _ _ _ L) as N2.
      destruct (_login_spec _ _ _ L)
        as (_ & _ & _ & _ & l1 & LG1 & A1 & B1 & C1 & _).
      specialize (C1 (ex_intro _ b eq_refl)).
      destruct (IH _ _ _ N2 E)
        as (de' & l2 & ev' & -> & LG2 & EV' & A2 & B2).
      exists de', ((l0 ++ [ev]) ++ l1 ++ l2), ev'.
      split; [reflexivity|]. split; [|split; [exact EV'|]].
      * rewrite LG2, LG1, LG. now rewrite <- !app_assoc.
      * replace (((l0 ++ [ev]) ++ l1 ++ l2) ++ [ev'])
          with ((l0 ++ [ev]) ++ l1 ++ (l2 ++ [ev']))
          by now rewrite <- !app_assoc.
        rewrite !(count_app _ (l0 ++ [ev])).
        rewrite !(count_app _ l1).
        split; [|intros Y; specialize (B2 Y)]; lia.
Qed.

(** A status that was returned was read on the driver the controller
    holds. *)
Lemma state_Ret_driver (fuel : nat) :
  forall (s s' : st W) (v : option string),
    state fuel s = (s', Ret v) -> exists d, _driver (self s') = Some d.
Proof.
  induction fuel as [|n IH]; intros s s' v E.
  - cbn in E; discriminate.
  - apply state_cases in E.
    destruct E as [(v' & R & E)|[(e & R & X & E)|[(s1 & e & R & X & e' & L & E)
                  |(s1 & e & s2 & b & R & X & L & E)]]]; try discriminate.
    + apply read_status_Ret in R. destruct R as (d & _ & _ & D & SF & _).
      exists d. now rewrite SF.
    + eapply IH; eauto.
Qed.

Lemma is_Disarmed_true (v : option string) :
  is_Disarmed v = true -> v = Some "Disarmed".
Proof.
  destruct v as [x|]; cbn; [|discriminate].
  intros E. apply String.eqb_eq in E. now subst.
Qed.

(** Every way an action sequence can go, on a controller with a driver and
    a locator of at least two components. *)
Lemma _set_state_cases (btn : list string) (t' : Z) (s s' : st W)
  (o : outcome unit) (d : driver) (by_ v1 : string) :
  _driver (self s) = Some d ->
  nth_error btn 0 = Some by_ ->
  nth_error btn 1 = Some v1 ->
  _set_state btn t' s = (s', o) ->
  exists l,
    log s' = log s ++ l /\
    let t := timeout (self s) in
    let W1 := Event (until d t (visibility_of_element_located by_ v1)) in
    (exists e, l = [W1 (inl e)] /\ o = Raise (Driver e)) \/
    (exists b e,
       l = [W1 (inr b); Event (click b) (inl e)] /\ o = Raise (Driver e)) \/
    (exists b,
       nth_error btn 2 = None /\
       l = [W1 (inr b); Event (click b) (inr tt)] /\ o = Ret tt) \/
    (exists b v2 e,
       nth_error btn 2 = Some v2 /\
       l = [W1 (inr b); Event (click b) (inr tt);
            Event (until d t (visibility_of_element_located by_ v2)) (inl e)]
       /\ o = Raise (Driver e)) \/
    (exists b v2 ob e,
       nth_error btn 2 = Some v2 /\
       l = [W1 (inr b); Event (click b) (inr tt);
            Event (until d t (visibility_of_element_located by_ v2)) (inr ob);
            Event (click ob) (inl e)]
       /\ o = Raise (Driver e)) \/
    (exists b v2 ob r,
       nth_error btn 2 = Some v2 /\
       l = [W1 (inr b); Event (click b) (inr tt);
            Event (until d t (visibility_of_element_located by_ v2)) (inr ob);
            Event (click ob) (inr tt);
            Event (until d t'
                     (invisibility_of_element_located "id" IMG_SPINNER)) r]
       /\ o = match r with
              | inl TimeoutException => Raise ElementException
              | inl e => Raise (Driver e)
              | inr _ => Ret tt
              end).
Proof.
  destruct s as [w [u p t [d0|]] lg];
    destruct btn as [|b0 [|b1 [|b2 rest]]];
    cbn [self _driver nth_error]; intros D B0 B1; try discriminate;
    inv D; inv B0; inv B1;
    unfold _set_state; unfold_monad; intros E; run_calls;
    try match type of E with
        | context [if ?c then _ else _] =>
            match c with context [?x] => is_var x; destruct x end
        end;
    inv E; cbn in *;
    repeat match goal with x : unit |- _ => destruct x end;
    new_events.
  all: first [ solve [left; eauto 10]
             | solve [right; left; eauto 10]
             | solve [right; right; left; eauto 10]
             | solve [right; right; right; left; eauto 10]
             | solve [right; right; right; right; left; eauto 10]
             | solve [right; right; right; right; right; eauto 12] ].
Qed.

(** An action sequence has no recursion in it. *)
Lemma _set_state_keeps_going (btn : list string) (t' : Z) (s s' : st W) :
  _set_state btn t' s = (s', OutOfFuel) -> False.
Proof.
  destruct s as [w [u p t [d|]] lg];
    destruct btn as [|b0 [|b1 [|b2 rest]]];
    unfold _set_state; unfold_monad; intros E; run_calls;
    try match type of E with
        | context [if ?c then _ else _] =>
            match c with context [?x] => is_var x; destruct x end
        end;
    discriminate.
Qed.

End MoreFacts.

(** ** Logging in, beyond the claims *)

Section LoginExtras.
Context {W : Type} `{Browser W}.

(** X1: a login that returns [True] has made exactly ten calls: start a
    browser, open [LOGIN_URL] in it, read the title ['Customer Login'],
    find the user-name field, the password field and the sign-in button,
    type the stored user name into the first and the stored password into
    the second, click the button, and read the title
    ['Current System Status'].  The browser started is [_driver]
    afterwards. *)
Theorem login_success_trace (s s' : st W) :
  _login s = (s', Ret true) ->
  exists d user pwd btn,
    self s' = mkAlarmdotcom (username (self s)) (password (self s))
                            (timeout (self s)) (Some d) /\
    log s' = log s ++
      [Event PhantomJS (inr d);
       Event (driver_get d LOGIN_URL) (inr tt);
       Event (driver_title d) (inr "Customer Login");
       Event (find_element d "name"
                "ctl00$ContentPlaceHolder1$loginform$txtUserName") (inr user);
       Event (find_element d "name" "txtPassword") (inr pwd);
       Event (find_element d "name"
                "ctl00$ContentPlaceHolder1$loginform$signInButton") (inr btn);
       Event (send_keys user (username (self s))) (inr tt);
       Event (send_keys pwd (password (self s))) (inr tt);
       Event (click btn) (inr tt);
       Event (driver_title d) (inr "Current System Status")].
Proof.
  destruct s as [w [u p t dr] lg]; unfold _login; unfold_monad;
    intros E; run_calls; inv E; str_eq; cbn in *;
    repeat match goal with x : unit |- _ => destruct x end.
  do 4 eexists. cbn [log self world username password timeout].
  rewrite <- !app_assoc; cbn [app]. split; reflexivity.
Qed.

(** X2: unless the title read on arrival is ['Customer Login'], [_login]
    types nothing: it has made at most the three calls that start the
    browser, open the page and read the title, and it does not return
    [True]. *)
Theorem login_types_nothing_on_unknown_page
  (s s' : st W) (o : outcome bool) (l : list event) :
  _login s = (s', o) ->
  log s' = log s ++ l ->
  initial_identity l <> Some "Customer Login" ->
  keys_sent l = [] /\ List.length l <= 3 /\ o <> Ret true.
Proof.
  destruct s as [w [u p t dr] lg]; unfold _login; unfold_monad;
    intros E L N; run_calls; inv E; str_eq;
    cbn [log self world] in L; rewrite <- ?app_assoc in L; cbn [app] in L;
    apply app_inv_head in L; subst l; cbn in *;
    try congruence; repeat split; try lia; discriminate.
Qed.

(** X3: [_login] begins by starting a browser.  If that call fails,
    nothing else is called and [self] is as it was; otherwise [_driver] is
    the new browser from then on, also when the login goes on to fail,
    every later call of the login that names a driver names that one, and
    no second browser is started. *)
Theorem login_replaces_driver (s s' : st W) (o : outcome bool) :
  _login s = (s', o) ->
  exists r l,
    log s' = log s ++ Event PhantomJS r :: l /\
    match r with
    | inl e => self s' = self s /\ l = [] /\ o = Raise (Driver e)
    | inr d =>
        self s' = mkAlarmdotcom (username (self s)) (password (self s))
                                (timeout (self s)) (Some d) /\
        forallb (addresses d) l = true /\
        count is_reconnect l = 0
    end.
Proof. apply _login_driver_spec. Qed.

End LoginExtras.

(** ** The status query, beyond the claims *)

Section StatusExtras.
Context {W : Type} `{Browser W}.

(** X5: an exception of the refresh-and-read block that is none of the
    four caught classes leaves [state] at once, at any depth: no login and
    no second attempt follow. *)
Theorem state_uncaught_error_not_retried
  (fuel : nat) (s s1 : st W) (e : exn) :
  read_status s = (s1, Raise e) ->
  state_except e = false ->
  state (S fuel) s = (s1, Raise e) /\
  self s1 = self s /\
  exists l, log s1 = log s ++ l /\
            count is_reconnect l = 0 /\ count is_read_attempt l <= 1.
Proof.
  intros R X. split; [rewrite state_unfold, R, X; reflexivity|].
  revert R. destruct s as [w [u p t [d|]] lg]; unfold read_status;
    unfold_monad; intros E; run_calls; inv E; try discriminate;
    (split; [reflexivity|]);
    first [ new_events; split; [reflexivity | lia]
          | exists []; cbn; rewrite app_nil_r; repeat split; lia ].
Qed.


(** X6: when the login made by the handler returns [False], [state] raises
    nothing: it goes on to the next read, on the browser that failed to
    log in, and returns what that read returns. *)
Theorem state_ignores_failed_relogin
  (fuel : nat) (s s1 s2 s' : st W) (e : exn) (v : option string) :
  read_status s = (s1, Raise e) ->
  state_except e = true ->
  _login s1 = (s2, Ret false) ->
  read_status s2 = (s', Ret v) ->
  state (S (S fuel)) s = (s', Ret v).
Proof.
  intros R X L R2.
  rewrite (state_retry _ _ _ _ _ _ R X L), state_unfold, R2. reflexivity.
Qed.

(** X7: whatever its outcome, [state] leaves the user name, the password
    and the timeout of the controller as they were and only adds to the
    log; [_driver] is the browser started last, and a controller that had
    a driver has one afterwards. *)
Theorem state_keeps_account
  (fuel : nat) (s s' : st W) (o : outcome (option string)) :
  state fuel s = (s', o) ->
  keeps_account s s' /\
  (_driver (self s) <> None -> _driver (self s') <> None).
Proof.
  intros E. pose proof (state_keeps _ _ _ _ E) as K. split; [exact K|].
  destruct K as (_ & _ & _ & l & _ & D). intros N. rewrite D.
  now apply current_driver_set.
Qed.

End StatusExtras.

(** ** Arming and disarming, beyond the claims *)

Section ActionExtras.
Context {W : Type} `{Browser W}.

(** X8: [disarm], [arm_away] and [arm_stay] leave the user name, the
    password and the timeout of the controller as they were, whatever
    their outcome; [_driver] is the browser started last, and a controller
    that had a driver has one afterwards. *)
Theorem actions_keep_account
  (op : nat -> M W unit) (fuel : nat) (s s' : st W) (o : outcome unit) :
  op = disarm \/ op = arm_away \/ op = arm_stay ->
  op fuel s = (s', o) ->
  keeps_account s s' /\
  (_driver (self s) <> None -> _driver (self s') <> None).
Proof.
  intros O E.
  assert (K : keeps_account s s').
  { destruct O as [-> | [-> | ->]]; unfold disarm, arm_away, arm_stay, bind in E;
      destruct (state fuel s) as [s1 [v|e|]] eqn:S1;
      pose proof (state_keeps _ _ _ _ S1) as K1;
      try (inv E; exact K1);
      destruct (is_Disarmed v); cbn [negb] in E;
      try (inv E; exact K1);
      (eapply keeps_account_trans; [exact K1|]);
      eapply _set_state_keeps; eauto. }
  split; [exact K|].
  destruct K as (_ & _ & _ & l & _ & D). intros N. rewrite D.
  now apply current_driver_set.
Qed.

(** X9: [arm_away] and [arm_stay] return normally only after a status read
    that returned ['Disarmed'] and the whole sequence answered: the wait
    for the primary button and the click on it, the wait for the option
    button and the click on it, both waits on [_driver] with the timeout
    of the controller, and the wait of 10 for the spinner to go. *)
Theorem arm_returns_after_full_sequence
  (arm : nat -> M W unit) (btn : list string) (fuel : nat) (s s' : st W) :
  (arm = arm_away /\ btn = BTN_ARM_AWAY) \/
  (arm = arm_stay /\ btn = BTN_ARM_STAY) ->
  arm fuel s = (s', Ret tt) ->
  exists s1 d v1 v2 b ob,
    state fuel s = (s1, Ret (Some "Disarmed")) /\
    _driver (self s1) = Some d /\
    btn = ["id"; v1; v2] /\
    log s' = log s1 ++
      [Event (until d (timeout (self s1))
                (visibility_of_element_located "id" v1)) (inr b);
       Event (click b) (inr tt);
       Event (until d (timeout (self s1))
                (visibility_of_element_located "id" v2)) (inr ob);
       Event (click ob) (inr tt);
       Event (until d default_set_state_timeout
                (invisibility_of_element_located "id" IMG_SPINNER))
             (inr tt)].
Proof.
  intros A E.
  assert (X : exists s1 v1 v2,
             state fuel s = (s1, Ret (Some "Disarmed")) /\
             btn = ["id"; v1; v2] /\
             _set_state btn default_set_state_timeout s1 = (s', Ret tt)).
  { destruct A as [[-> ->] | [-> ->]]; unfold arm_away, arm_stay, bind in E;
      destruct (state fuel s) as [s1 [v|e|]] eqn:S1; try discriminate;
      destruct (is_Disarmed v) eqn:D; try discriminate;
      apply is_Disarmed_true in D; subst v;
      do 3 eexists; (split; [reflexivity|]); (split; [reflexivity | exact E]). }
  destruct X as (s1 & v1 & v2 & S1 & -> & R).
  destruct (state_Ret_driver _ _ _ _ S1) as (d & D).
  destruct (_set_state_cases ["id"; v1; v2] _ _ _ _ d "id" v1 D
                eq_refl eq_refl R)
    as (l & L & C).
  cbn in C.
  destruct C as [(e & _ & ?)|[(b & e & _ & ?)|[(b & ? & _)|[(b & x & e & _ & _ & ?)
              |[(b & x & ob & e & _ & _ & ?)|(b & x & ob & r & V & -> & O)]]]]];
    try discriminate.
  inv V. destruct r as [[]|[]]; try discriminate.
  exists s1, d, v1, x, b, ob. repeat split; auto.
Qed.

(** X10: [disarm] returns normally only after a status read that returned
    something other than ['Disarmed'], and right after the click on the
    disarm button is answered: the wait for the button and the click are
    all it adds, with no wait for the spinner. *)
Theorem disarm_returns_after_click (fuel : nat) (s s' : st W) :
  disarm fuel s = (s', Ret tt) ->
  exists s1 v d b,
    state fuel s = (s1, Ret v) /\
    v <> Some "Disarmed" /\
    _driver (self s1) = Some d /\
    log s' = log s1 ++
      [Event (until d (timeout (self s1))
                (visibility_of_element_located "id"
                   "ctl00_phBody_ArmingStateWidget_btnDisarm")) (inr b);
       Event (click b) (inr tt)].
Proof.
  unfold disarm, bind. intros E.
  destruct (state fuel s) as [s1 [v|e|]] eqn:S1; try discriminate.
  destruct (is_Disarmed v) eqn:D; cbn [negb] in E; try discriminate.
  destruct (state_Ret_driver _ _ _ _ S1) as (d & DR).
  destruct (_set_state_cases BTN_DISARM _ _ _ _ d "id" _ DR
                eq_refl eq_refl E)
    as (l & L & C).
  cbn in C.
  destruct C as [(e & _ & ?)|[(b & e & _ & ?)|[(b & _ & -> & _)|[(b & x & e & ? & _)
              |[(b & x & ob & e & ? & _)|(b & x & ob & r & ? & _)]]]]];
    try discriminate.
  exists s1, v, d, b. repeat split; auto.
  intros ->. cbn in D. discriminate.
Qed.

(** The exceptions of [arm_away] and [arm_stay], on a controller that has
    a driver. *)
Lemma arm_Raise_kinds
  (arm : nat -> M W unit) (fuel : nat) (s s' : st W) (e : exn) :
  arm = arm_away \/ arm = arm_stay ->
  _driver (self s) <> None ->
  arm fuel s = (s', Raise e) ->
  (e = SystemArmedError \/ e = ElementException \/ exists de, e = Driver de) /\
  (e = ElementException ->
   exists s1 d l0,
     state fuel s = (s1, Ret (Some "Disarmed")) /\
     List.length l0 = 4 /\
     forallb (fun ev => negb (raised ev)) l0 = true /\
     log s' = log s1 ++ l0 ++
       [Event (until d default_set_state_timeout
                 (invisibility_of_element_located "id" IMG_SPINNER))
              (inl TimeoutException)]).
Proof.
  intros A N E.
  assert (X : (exists de, state fuel s = (s', Raise (Driver de)) /\ e = Driver de) \/
              (exists v, state fuel s = (s', Ret v) /\ e = SystemArmedError) \/
              (exists s1 v1 v2,
                 state fuel s = (s1, Ret (Some "Disarmed")) /\
                 _set_state ["id"; v1; v2] default_set_state_timeout s1
                 = (s', Raise e))).
  { destruct A as [-> | ->]; unfold arm_away, arm_stay, bind in E;
      destruct (state fuel s) as [s1 [v|e0|]] eqn:S1; try discriminate.
    1,3: destruct (is_Disarmed v) eqn:D;
      [ apply is_Disarmed_true in D; subst v; right; right; eauto 10
      | inv E; right; left; eauto ].
    all: inv E; destruct (state_Raise_spec _ _ _ _ N S1)
        as (de & _ & _ & -> & _); left; eauto. }
  destruct X as [(de & _ & ->)|[(v & _ & ->)|(s1 & v1 & v2 & S1 & R)]].
  - split; [eauto|]. discriminate.
  - split; [eauto|]. discriminate.
  - destruct (state_Ret_driver _ _ _ _ S1) as (d & D).
    destruct (_set_state_cases ["id"; v1; v2] _ _ _ _ d "id" v1 D
                eq_refl eq_refl R)
      as (l & L & C).
    cbn in C.
    destruct C as [(x & _ & O)|[(b & x & _ & O)|[(b & ? & _)|[(b & y & x & _ & _ & O)
              |[(b & y & ob & x & _ & _ & O)|(b & y & ob & r & V & -> & O)]]]]];
      try discriminate; try (inv O; split; [eauto|]; discriminate).
    inv V. destruct r as [[]|[]]; inv O; (split; [eauto|]); try discriminate.
    intros _. exists s1, d. eexists [_; _; _; _].
    split; [exact S1|]. split; [reflexivity|]. split.
    2: exact L.
    reflexivity.
Qed.

(** X11: on a controller that has a driver, [arm_away] and [arm_stay] end
    in one of these ways and no other: they return; the status read uses
    up the depth of recursion ([RecursionError] in Python); or they raise
    [SystemArmedError], [ElementException] or an error of the driver.
    [ElementException] is raised only when the status read returned
    ['Disarmed'], the four calls on the two buttons were answered and the
    wait of 10 for the spinner timed out. *)
Theorem arm_ends_only
  (arm : nat -> M W unit) (fuel : nat) (s s' : st W) (o : outcome unit) :
  arm = arm_away \/ arm = arm_stay ->
  _driver (self s) <> None ->
  arm fuel s = (s', o) ->
  (o = Ret tt \/
   (o = OutOfFuel /\ state fuel s = (s', OutOfFuel)) \/
   o = Raise SystemArmedError \/ o = Raise ElementException \/
   exists de, o = Raise (Driver de)) /\
  (o = Raise ElementException ->
   exists s1 d l0,
     state fuel s = (s1, Ret (Some "Disarmed")) /\
     List.length l0 = 4 /\
     forallb (fun ev => negb (raised ev)) l0 = true /\
     log s' = log s1 ++ l0 ++
       [Event (until d default_set_state_timeout
                 (invisibility_of_element_located "id" IMG_SPINNER))
              (inl TimeoutException)]).
Proof.
  intros A N E. destruct o as [[]|e|].
  - split; [auto|]. discriminate.
  - destruct (arm_Raise_kinds arm fuel s s' e A N E) as (K & X).
    split.
    + destruct K as [-> | [-> | (de & ->)]]; eauto 10.
    + intros Y. apply X. congruence.
  - split; [|discriminate]. right; left. split; [reflexivity|].
    destruct A as [-> | ->]; unfold arm_away, arm_stay, bind in E;
      destruct (state fuel s) as [s1 [v|e0|]] eqn:S1; try discriminate;
      try (inv E; reflexivity);
      destruct (is_Disarmed v); try discriminate;
      exfalso; eapply _set_state_keeps_going; eauto.
Qed.

(** The exceptions of [disarm], on a controller that has a driver. *)
Lemma disarm_Raise_kinds (fuel : nat) (s s' : st W) (e : exn) :
  _driver (self s) <> None ->
  disarm fuel s = (s', Raise e) ->
  e = SystemDisarmedError \/ exists de, e = Driver de.
Proof.
  unfold disarm, bind. intros N E.
  destruct (state fuel s) as [s1 [v|e0|]] eqn:S1; try discriminate.
  - destruct (is_Disarmed v) eqn:D; cbn [negb] in E; [inv E; auto|].
    destruct (state_Ret_driver _ _ _ _ S1) as (d & DR).
    destruct (_set_state_cases BTN_DISARM _ _ _ _ d "id" _ DR
                eq_refl eq_refl E)
      as (l & L & C).
    cbn in C.
    destruct C as [(x & _ & O)|[(b & x & _ & O)|[(b & _ & _ & O)|[(b & y & x & ? & _)
              |[(b & y & ob & x & ? & _)|(b & y & ob & r & ? & _)]]]]];
      try discriminate; inv O; eauto.
  - inv E. destruct (state_Raise_spec _ _ _ _ N S1) as (de & _ & _ & -> & _).
    eauto.
Qed.

(** X12: on a controller that has a driver, [disarm] ends in one of these
    ways and no other: it returns; the status read uses up the depth of
    recursion ([RecursionError] in Python); or it raises
    [SystemDisarmedError] or an error of the driver.  [ElementException]
    and [SystemArmedError] never come out of [disarm]. *)
Theorem disarm_ends_only
  (fuel : nat) (s s' : st W) (o : outcome unit) :
  _driver (self s) <> None ->
  disarm fuel s = (s', o) ->
  o = Ret tt \/
  (o = OutOfFuel /\ state fuel s = (s', OutOfFuel)) \/
  o = Raise SystemDisarmedError \/
  exists de, o = Raise (Driver de).
Proof.
  intros N E. destruct o as [[]|e|].
  - auto.
  - destruct (disarm_Raise_kinds fuel s s' e N E) as [-> | (de & ->)]; eauto 10.
  - right; left. split; [reflexivity|].
    unfold disarm, bind in E.
    destruct (state fuel s) as [s1 [v|e0|]] eqn:S1; try discriminate;
      try (inv E; reflexivity).
    destruct (is_Disarmed v); cbn [negb] in E; try discriminate.
    exfalso; eapply _set_state_keeps_going; eauto.
Qed.

(** X13: a locator of fewer than two components makes [_set_state] raise
    [IndexError] before any call reaches the driver: the state is
    untouched. *)
Theorem set_state_short_locator_IndexError
  (btn : list string) (t' : Z) (s : st W) :
  _driver (self s) <> None ->
  List.length btn < 2 ->
  _set_state btn t' s = (s, Raise IndexError).
Proof.
  intros N L. destruct s as [w [u p t [d|]] lg]; cbn in N; [|congruence].
  destruct btn as [|b0 [|b1 rest]]; cbn in L; try lia; reflexivity.
Qed.

End ActionExtras.

(** ** Runs for the further properties *)

Lemma login_success_trace_witness :
  let s := fresh (site 0 (Some "Disarmed")) in
  let s' := fst (_login s) in
  _login s = (s', Ret true) /\
  exists d user pwd btn,
    self s' = mkAlarmdotcom (username (self s)) (password (self s))
                            (timeout (self s)) (Some d) /\
    log s' = log s ++
      [Event PhantomJS (inr d);
       Event (driver_get d LOGIN_URL) (inr tt);
       Event (driver_title d) (inr "Customer Login");
       Event (find_element d "name"
                "ctl00$ContentPlaceHolder1$loginform$txtUserName") (inr user);
       Event (find_element d "name" "txtPassword") (inr pwd);
       Event (find_element d "name"
                "ctl00$ContentPlaceHolder1$loginform$signInButton") (inr btn);
       Event (send_keys user (username (self s))) (inr tt);
       Event (send_keys pwd (password (self s))) (inr tt);
       Event (click btn) (inr tt);
       Event (driver_title d) (inr "Current System Status")].
Proof.
  intros s s'.
  assert (E : _login s = (s', Ret true)) by (vm_compute; reflexivity).
  split; [exact E | exact (login_success_trace s s' E)].
Defined.

Lemma login_types_nothing_on_unknown_page_witness :
  let s := fresh maintenance_site in
  let s' := fst (_login s) in
  _login s = (s', Ret false) /\
  log s' = log s ++ log s' /\
  initial_identity (log s') <> Some "Customer Login" /\
  keys_sent (log s') = [] /\ List.length (log s') <= 3 /\
  Ret false <> Ret true.
Proof.
  intros s s'.
  assert (E : _login s = (s', Ret false)) by (vm_compute; reflexivity).
  assert (L : log s' = log s ++ log s') by reflexivity.
  assert (N : initial_identity (log s') <> Some "Customer Login")
    by (vm_compute; discriminate).
  split; [exact E|]. split; [exact L|]. split; [exact N|].
  exact (login_types_nothing_on_unknown_page s s' _ _ E L N).
Defined.

Lemma login_replaces_driver_witness :
  let s := logged_in rejecting_site 5 in
  let s' := fst (_login s) in
  _login s = (s', Ret false) /\
  exists r l,
    log s' = log s ++ Event PhantomJS r :: l /\
    match r with
    | inl e => self s' = self s /\ l = [] /\ Ret false = Raise (Driver e)
    | inr d =>
        self s' = mkAlarmdotcom (username (self s)) (password (self s))
                                (timeout (self s)) (Some d) /\
        forallb (addresses d) l = true /\
        count is_reconnect l = 0
    end.
Proof.
  intros s s'.
  assert (E : _login s = (s', Ret false)) by (vm_compute; reflexivity).
  split; [exact E | exact (login_replaces_driver s s' _ E)].
Defined.

Lemma state_uncaught_error_not_retried_witness :
  let s := scripted stale_refresh in
  let s1 := fst (read_status s) in
  read_status s = (s1, Raise (Driver WebDriverException)) /\
  state_except (Driver WebDriverException) = false /\
  state 3 s = (s1, Raise (Driver WebDriverException)) /\
  self s1 = self s /\
  exists l, log s1 = log s ++ l /\
            count is_reconnect l = 0 /\ count is_read_attempt l <= 1.
Proof.
  intros s s1.
  assert (R : read_status s = (s1, Raise (Driver WebDriverException)))
    by (vm_compute; reflexivity).
  assert (X : state_except (Driver WebDriverException) = false)
    by reflexivity.
  split; [exact R|]. split; [exact X|].
  exact (state_uncaught_error_not_retried 2 s s1 _ R X).
Defined.

Lemma state_ignores_failed_relogin_witness :
  let s := scripted expired_session in
  let s1 := fst (read_status s) in
  let s2 := fst (_login s1) in
  let s' := fst (read_status s2) in
  read_status s = (s1, Raise (Driver TimeoutException)) /\
  state_except (Driver TimeoutException) = true /\
  _login s1 = (s2, Ret false) /\
  read_status s2 = (s', Ret (Some "Disarmed")) /\
  state 2 s = (s', Ret (Some "Disarmed")).
Proof.
  intros s s1 s2 s'.
  assert (R : read_status s = (s1, Raise (Driver TimeoutException)))
    by (vm_compute; reflexivity).
  assert (X : state_except (Driver TimeoutException) = true) by reflexivity.
  assert (L : _login s1 = (s2, Ret false)) by (vm_compute; reflexivity).
  assert (R2 : read_status s2 = (s', Ret (Some "Disarmed")))
    by (vm_compute; reflexivity).
  split; [exact R|]. split; [exact X|]. split; [exact L|].
  split; [exact R2|].
  exact (state_ignores_failed_relogin 0 s s1 s2 s' _ _ R X L R2).
Defined.

Lemma state_keeps_account_witness :
  let s := logged_in (site 1 (Some "Armed Stay")) 5 in
  let s' := fst (state 2 s) in
  state 2 s = (s', Ret (Some "Armed Stay")) /\
  keeps_account s s' /\
  (_driver (self s) <> None -> _driver (self s') <> None).
Proof.
  intros s s'.
  assert (E : state 2 s = (s', Ret (Some "Armed Stay")))
    by (vm_compute; reflexivity).
  split; [exact E | exact (state_keeps_account 2 s s' _ E)].
Defined.

Lemma actions_keep_account_witness :
  let s := logged_in (disarmed_site true true true) 5 in
  let s' := fst (arm_stay 1 s) in
  (@arm_stay Site _ = disarm \/ @arm_stay Site _ = arm_away \/
   @arm_stay Site _ = arm_stay) /\
  arm_stay 1 s = (s', Ret tt) /\
  keeps_account s s' /\
  (_driver (self s) <> None -> _driver (self s') <> None).
Proof.
  intros s s'.
  assert (O : @arm_stay Site _ = disarm \/ @arm_stay Site _ = arm_away \/
              @arm_stay Site _ = arm_stay) by (right; right; reflexivity).
  assert (E : arm_stay 1 s = (s', Ret tt)) by (vm_compute; reflexivity).
  split; [exact O|]. split; [exact E|].
  exact (actions_keep_account arm_stay 1 s s' _ O E).
Defined.

Lemma arm_returns_after_full_sequence_witness :
  let s := logged_in (disarmed_site true true true) 5 in
  let s' := fst (arm_away 1 s) in
  ((@arm_away Site _ = arm_away /\ BTN_ARM_AWAY = BTN_ARM_AWAY) \/
   (@arm_away Site _ = arm_stay /\ BTN_ARM_AWAY = BTN_ARM_STAY)) /\
  arm_away 1 s = (s', Ret tt) /\
  exists s1 d v1 v2 b ob,
    state 1 s = (s1, Ret (Some "Disarmed")) /\
    _driver (self s1) = Some d /\
    BTN_ARM_AWAY = ["id"; v1; v2] /\
    log s' = log s1 ++
      [Event (until d (timeout (self s1))
                (visibility_of_element_located "id" v1)) (inr b);
       Event (click b) (inr tt);
       Event (until d (timeout (self s1))
                (visibility_of_element_located "id" v2)) (inr ob);
       Event (click ob) (inr tt);
       Event (until d default_set_state_timeout
                (invisibility_of_element_located "id" IMG_SPINNER))
             (inr tt)].
Proof.
  intros s s'.
  assert (A : (@arm_away Site _ = arm_away /\ BTN_ARM_AWAY = BTN_ARM_AWAY) \/
              (@arm_away Site _ = arm_stay /\ BTN_ARM_AWAY = BTN_ARM_STAY))
    by (left; split; reflexivity).
  assert (E : arm_away 1 s = (s', Ret tt)) by (vm_compute; reflexivity).
  split; [exact A|]. split; [exact E|].
  exact (arm_returns_after_full_sequence arm_away BTN_ARM_AWAY 1 s s' A E).
Defined.

Lemma disarm_returns_after_click_witness :
  let s := logged_in (site 0 (Some "Armed Away")) 5 in
  let s' := fst (disarm 1 s) in
  disarm 1 s = (s', Ret tt) /\
  exists s1 v d b,
    state 1 s = (s1, Ret v) /\
    v <> Some "Disarmed" /\
    _driver (self s1) = Some d /\
    log s' = log s1 ++
      [Event (until d (timeout (self s1))
                (visibility_of_element_located "id"
                   "ctl00_phBody_ArmingStateWidget_btnDisarm")) (inr b);
       Event (click b) (inr tt)].
Proof.
  intros s s'.
  assert (E : disarm 1 s = (s', Ret tt)) by (vm_compute; reflexivity).
  split; [exact E | exact (disarm_returns_after_click 1 s s' E)].
Defined.

Lemma set_state_short_locator_IndexError_witness :
  let s := logged_in (disarmed_site true true true) 5 in
  _driver (self s) <> None /\
  List.length ["id"] < 2 /\
  _set_state ["id"] 10 s = (s, Raise IndexError).
Proof.
  intros s.
  assert (N : _driver (self s) <> None) by (vm_compute; discriminate).
  assert (L : List.length ["id"] < 2) by (cbn; lia).
  split; [exact N|]. split; [exact L|].
  exact (set_state_short_locator_IndexError ["id"] 10 s N L).
Defined.

(** ** Runs for the revised statements *)

Lemma state_retries_after_every_failure_witness :
  let s := logged_in (site 2 (Some "Disarmed")) 5 in
  let s2 := match failed_rounds 2 s with Some x => x | None => s end in
  let s' := fst (read_status s2) in
  failed_rounds 2 s = Some s2 /\
  read_status s2 = (s', Ret (Some "Disarmed")) /\
  2 < 3 /\
  state 3 s = (s', Ret (Some "Disarmed")) /\
  exists l,
    log s' = log s ++ l /\
    count is_reconnect l = 2 /\
    count raised l = 2 /\
    count is_read_attempt l = 3.
Proof.
  intros s s2 s'.
  assert (F : failed_rounds 2 s = Some s2) by (vm_compute; reflexivity).
  assert (R : read_status s2 = (s', Ret (Some "Disarmed")))
    by (vm_compute; reflexivity).
  assert (LT : 2 < 3) by lia.
  split; [exact F|]. split; [exact R|]. split; [exact LT|].
  exact (state_retries_after_every_failure 2 3 s s2 s' _ F R LT).
Defined.

(** C9 (counterexample): five sites whose status images say five different
    things make the query return five different values, the five texts as
    they stand, one of them no text at all.  No four values, however the
    four states are written down, hold them all. *)
Lemma status_returns_five_distinct_values :
  let alts := [Some "Disarmed"; Some "Armed Stay"; Some "Armed Away";
               Some "Armed Night"; None] in
  map (fun alt => snd (state 1 (logged_in (site 0 alt) 5))) alts
    = map Ret alts /\
  NoDup alts /\
  ~ exists e1 e2 e3 e4 : option string, incl alts [e1; e2; e3; e4].
Proof.
  cbv zeta. split; [vm_compute; reflexivity|]. split.
  - repeat constructor; cbn; intuition discriminate.
  - intros (e1 & e2 & e3 & e4 & I).
    apply NoDup_incl_length in I.
    + cbn in I. lia.
    + repeat constructor; cbn; intuition discriminate.
Qed.

Lemma status_returns_alt_text_as_read_witness :
  let s := logged_in (site 0 None) 5 in
  let s' := fst (state 1 s) in
  state 1 s = (s', Ret None) /\
  (exists l d t img,
     log s' = log s ++ l ++
       [Event (until d t
                 (presence_of_element_located "id"
                    "ctl00_phBody_ArmingStateWidget_imgState")) (inr img);
        Event (get_attribute img "alt") (inr None)]) /\
  (forall alt : option string,
     snd (state 1 (logged_in (site 0 alt) 5)) = Ret alt).
Proof.
  intros s s'.
  assert (E : state 1 s = (s', Ret None)) by (vm_compute; reflexivity).
  split; [exact E | exact (status_returns_alt_text_as_read 1 s s' _ E)].
Defined.

Lemma secondary_step_iff_locator_defines_it_witness :
  let s := logged_in (disarmed_site true true true) 5 in
  let s1 := fst (state 1 s) in
  let w := world s1 in
  let v1 := "ctl00_phBody_ArmingStateWidget_btnArmAway" in
  let v2 := "ctl00_phBody_ArmingStateWidget_btnArmOptionAway" in
  ((@arm_away Site _ = disarm /\ BTN_ARM_AWAY = BTN_DISARM /\
    is_Disarmed (Some "Disarmed") = false) \/
   (@arm_away Site _ = arm_away /\ BTN_ARM_AWAY = BTN_ARM_AWAY /\
    is_Disarmed (Some "Disarmed") = true) \/
   (@arm_away Site _ = arm_stay /\ BTN_ARM_AWAY = BTN_ARM_STAY /\
    is_Disarmed (Some "Disarmed") = true)) /\
  state 1 s = (s1, Ret (Some "Disarmed")) /\
  _driver (self s1) = Some 0 /\
  nth_error BTN_ARM_AWAY 1 = Some v1 /\
  respond w (until 0 (timeout (self s1))
               (visibility_of_element_located "id" v1)) = (w, inr 6) /\
  respond w (click 6) = (w, inr tt) /\
  (forall x, nth_error BTN_ARM_AWAY 2 = Some x ->
     respond w (until 0 (timeout (self s1))
                  (visibility_of_element_located "id" x)) = (w, inr 7)) /\
  (@arm_away Site _ = arm_away \/ @arm_away Site _ = arm_stay) /\
  exists l,
    log (fst (arm_away 1 s)) =
      log s1 ++
      [Event (until 0 (timeout (self s1))
                (visibility_of_element_located "id" v1)) (inr 6);
       Event (click 6) (inr tt);
       Event (until 0 (timeout (self s1))
                (visibility_of_element_located "id" v2)) (inr 7)] ++ l /\
    forall ob, @inr driver_exn WebElement 7 = inr ob ->
               exists r4 l', l = Event (click ob) r4 :: l'.
Proof.
  intros s s1 w v1 v2.
  assert (O : (@arm_away Site _ = disarm /\ BTN_ARM_AWAY = BTN_DISARM /\
               is_Disarmed (Some "Disarmed") = false) \/
              (@arm_away Site _ = arm_away /\ BTN_ARM_AWAY = BTN_ARM_AWAY /\
               is_Disarmed (Some "Disarmed") = true) \/
              (@arm_away Site _ = arm_stay /\ BTN_ARM_AWAY = BTN_ARM_STAY /\
               is_Disarmed (Some "Disarmed") = true))
    by (right; left; repeat split).
  assert (E : state 1 s = (s1, Ret (Some "Disarmed")))
    by (vm_compute; reflexivity).
  assert (D : _driver (self s1) = Some 0) by (vm_compute; reflexivity).
  assert (B1 : nth_error BTN_ARM_AWAY 1 = Some v1) by reflexivity.
  assert (R1 : respond w (until 0 (timeout (self s1))
                            (visibility_of_element_located "id" v1))
               = (w, inr 6)) by (vm_compute; reflexivity).
  assert (R2 : respond w (click 6) = (w, inr tt)) by (vm_compute; reflexivity).
  assert (R3 : forall x, nth_error BTN_ARM_AWAY 2 = Some x ->
                 respond w (until 0 (timeout (self s1))
                              (visibility_of_element_located "id" x))
                 = (w, inr 7))
    by (intros x X; inv X; vm_compute; reflexivity).
  split; [exact O|]. split; [exact E|]. split; [exact D|].
  split; [exact B1|]. split; [exact R1|]. split; [exact R2|].
  split; [exact R3|].
  exact (secondary_step_iff_locator_defines_it
           arm_away BTN_ARM_AWAY 1 s s1 _ 0 v1 w w w 6 (inr 7)
           O E D B1 R1 R2 R3).
Defined.

Lemma arm_completion_wait_bounded_by_set_state_timeout_witness :
  let s := logged_in (disarmed_site true true false) 5 in
  let s1 := fst (state 1 s) in
  let w := world s1 in
  let v1 := "ctl00_phBody_ArmingStateWidget_btnArmAway" in
  let v2 := "ctl00_phBody_ArmingStateWidget_btnArmOptionAway" in
  ((@arm_away Site _ = arm_away /\ ["id"; v1; v2] = BTN_ARM_AWAY) \/
   (@arm_away Site _ = arm_stay /\ ["id"; v1; v2] = BTN_ARM_STAY)) /\
  state 1 s = (s1, Ret (Some "Disarmed")) /\
  _driver (self s1) = Some 0 /\
  respond w (until 0 (timeout (self s1))
               (visibility_of_element_located "id" v1)) = (w, inr 6) /\
  respond w (click 6) = (w, inr tt) /\
  respond w (until 0 (timeout (self s1))
               (visibility_of_element_located "id" v2)) = (w, inr 7) /\
  respond w (click 7) = (w, inr tt) /\
  respond w (until 0 default_set_state_timeout
               (invisibility_of_element_located "id" IMG_SPINNER))
    = (w, inl TimeoutException) /\
  arm_away 1 s =
    (mkSt w (self s1)
       (log s1 ++
        [Event (until 0 (timeout (self s1))
                  (visibility_of_element_located "id" v1)) (inr 6);
         Event (click 6) (inr tt);
         Event (until 0 (timeout (self s1))
                  (visibility_of_element_located "id" v2)) (inr 7);
         Event (click 7) (inr tt);
         Event (until 0 default_set_state_timeout
                  (invisibility_of_element_located "id" IMG_SPINNER))
               (inl TimeoutException)]),
     Raise ElementException) /\
  (default_timeout < default_set_state_timeout)%Z.
Proof.
  intros s s1 w v1 v2.
  assert (A : (@arm_away Site _ = arm_away /\ ["id"; v1; v2] = BTN_ARM_AWAY) \/
              (@arm_away Site _ = arm_stay /\ ["id"; v1; v2] = BTN_ARM_STAY))
    by (left; split; reflexivity).
  assert (E : state 1 s = (s1, Ret (Some "Disarmed")))
    by (vm_compute; reflexivity).
  assert (D : _driver (self s1) = Some 0) by (vm_compute; reflexivity).
  assert (R1 : respond w (until 0 (timeout (self s1))
                            (visibility_of_element_located "id" v1))
               = (w, inr 6)) by (vm_compute; reflexivity).
  assert (R2 : respond w (click 6) = (w, inr tt)) by (vm_compute; reflexivity).
  assert (R3 : respond w (until 0 (timeout (self s1))
                            (visibility_of_element_located "id" v2))
               = (w, inr 7)) by (vm_compute; reflexivity).
  assert (R4 : respond w (click 7) = (w, inr tt)) by (vm_compute; reflexivity).
  assert (R5 : respond w (until 0 default_set_state_timeout
                            (invisibility_of_element_located "id" IMG_SPINNER))
               = (w, inl TimeoutException)) by (vm_compute; reflexivity).
  split; [exact A|]. split; [exact E|]. split; [exact D|].
  split; [exact R1|]. split; [exact R2|]. split; [exact R3|].
  split; [exact R4|]. split; [exact R5|].
  exact (arm_completion_wait_bounded_by_set_state_timeout
           arm_away 1 s s1 0 v1 v2 w w w w w 6 7 (inl TimeoutException)
           A E D R1 R2 R3 R4 R5).
Defined.

(** C10: a login page with the right title and no user-name field, or a
    browser that does not start, makes [_login] leave with the error of
    the driver, and the constructor with it: no object is built, and what
    is raised is not [LoginException], the exception the module raises
    when it is unable to log in. *)
Theorem init_interrupted_login_raises_driver_error :
  snd (__init__ "user" "secret" 5
         [Gives 0 ""; Gives 0 ""; Gives 0 "Customer Login";
          Fails NoSuchElementException])
    = Raise (Driver NoSuchElementException) /\
  snd (__init__ "user" "secret" 5 [Fails WebDriverException])
    = Raise (Driver WebDriverException) /\
  Raise (Driver NoSuchElementException) <> Raise LoginException :> outcome unit
  /\
  Raise (Driver WebDriverException) <> Raise LoginException :> outcome unit.
Proof.
  repeat split; try (vm_compute; reflexivity); discriminate.
Qed.


Lemma arm_ends_only_witness :
  let s := logged_in (disarmed_site true true false) 5 in
  let s' := fst (arm_away 1 s) in
  let o : outcome unit := Raise ElementException in
  (@arm_away Site _ = arm_away \/ @arm_away Site _ = arm_stay) /\
  _driver (self s) <> None /\
  arm_away 1 s = (s', o) /\
  (o = Ret tt \/
   (o = OutOfFuel /\ state 1 s = (s', OutOfFuel)) \/
   o = Raise SystemArmedError \/ o = Raise ElementException \/
   exists de, o = Raise (Driver de)) /\
  (o = Raise ElementException ->
   exists s1 d l0,
     state 1 s = (s1, Ret (Some "Disarmed")) /\
     List.length l0 = 4 /\
     forallb (fun ev => negb (raised ev)) l0 = true /\
     log s' = log s1 ++ l0 ++
       [Event (until d default_set_state_timeout
                 (invisibility_of_element_located "id" IMG_SPINNER))
              (inl TimeoutException)]).
Proof.
  intros s s' o.
  assert (A : @arm_away Site _ = arm_away \/ @arm_away Site _ = arm_stay)
    by (left; reflexivity).
  assert (N : _driver (self s) <> None) by (vm_compute; discriminate).
  assert (E : arm_away 1 s = (s', o)) by (vm_compute; reflexivity).
  split; [exact A|]. split; [exact N|]. split; [exact E|].
  exact (arm_ends_only arm_away 1 s s' _ A N E).
Defined.

Lemma disarm_ends_only_witness :
  let s := logged_in (mkSite "Customer Login" "Current System Status" "" 0
                             (Some "Armed Away") false true true 0) 5 in
  let s' := fst (disarm 1 s) in
  let o : outcome unit := Raise (Driver TimeoutException) in
  _driver (self s) <> None /\
  disarm 1 s = (s', o) /\
  (o = Ret tt \/
   (o = OutOfFuel /\ state 1 s = (s', OutOfFuel)) \/
   o = Raise SystemDisarmedError \/
   exists de, o = Raise (Driver de)).
Proof.
  intros s s' o.
  assert (N : _driver (self s) <> None) by (vm_compute; discriminate).
  assert (E : disarm 1 s = (s', o)) by (vm_compute; reflexivity).
  split; [exact N|]. split; [exact E|].
  exact (disarm_ends_only 1 s s' _ N E).
Defined.
